(** * document_processor: the asynchronous PDF text-extraction pipeline

    A shallow embedding of
      - [backend/app/services/pdf_service.py]  (the dual-strategy selector),
      - [backend/app/models/__init__.py]       (the two persisted records),
      - [backend/app/celery_worker.py]         (one attempt of the Celery task),
      - [backend/app/routers/documents.py]     (reading the extracted text),
    together with the properties of the retry policy, of the selector and
    of the consistency of the Document and ProcessingTask records. *)

From Stdlib Require Import ZArith NArith Ascii String Decimal.
From Stdlib Require DecimalPos.
From stdpp Require Import base option list gmap.

Local Open Scope Z_scope.

(** ** Python strings

    A Python [str] is a sequence of Unicode code points and [len] counts
    code points, so a string is a list of code points here.  Literals of
    the source are written as Rocq string literals (UTF-8 bytes) and decoded
    once by [utf8]. *)

Module PyStr.

Abbreviation str := (list N).

Fixpoint utf8_decode (s : string) (acc : N) (pending : nat) : str :=
  match s with
  | EmptyString => []
  | String a rest =>
      let b := N_of_ascii a in
      match pending with
      | O =>
          if (b <? 128)%N then b :: utf8_decode rest 0%N O
          else if (b <? 224)%N then utf8_decode rest (b - 192)%N 1%nat
          else if (b <? 240)%N then utf8_decode rest (b - 224)%N 2%nat
          else utf8_decode rest (b - 240)%N 3%nat
      | S k =>
          let acc' := (acc * 64 + (b - 128))%N in
          match k with
          | O => acc' :: utf8_decode rest 0%N O
          | S _ => utf8_decode rest acc' k
          end
      end
  end.

Definition utf8 (s : string) : str := utf8_decode s 0%N O.

(** [len(s)] *)
Definition len (s : str) : Z := Z.of_nat (length s).

(** [str(n)] for a Python [int]: an optional minus sign and decimal digits. *)
Fixpoint digits (d : Decimal.uint) : str :=
  match d with
  | Decimal.Nil => []
  | Decimal.D0 d => 48%N :: digits d
  | Decimal.D1 d => 49%N :: digits d
  | Decimal.D2 d => 50%N :: digits d
  | Decimal.D3 d => 51%N :: digits d
  | Decimal.D4 d => 52%N :: digits d
  | Decimal.D5 d => 53%N :: digits d
  | Decimal.D6 d => 54%N :: digits d
  | Decimal.D7 d => 55%N :: digits d
  | Decimal.D8 d => 56%N :: digits d
  | Decimal.D9 d => 57%N :: digits d
  end.

Definition str_of_int (z : Z) : str :=
  match Z.to_int z with
  | Decimal.Pos d => digits d
  | Decimal.Neg d => 45%N :: digits d
  end.

(** [needle in hay] on strings: [needle] occurs as a contiguous slice. *)
Fixpoint startswith (hay needle : str) : bool :=
  match needle, hay with
  | [], _ => true
  | _ :: _, [] => false
  | c :: needle', h :: hay' => if (c =? h)%N then startswith hay' needle' else false
  end.

Fixpoint contains (needle hay : str) : bool :=
  startswith hay needle ||
  match hay with
  | [] => false
  | _ :: hay' => contains needle hay'
  end.

(** [c.isspace()] as used by [str.strip()] without argument: the code
    points CPython classifies as whitespace. *)
Definition isspace (c : N) : bool :=
  ((9 <=? c) && (c <=? 13) || (28 <=? c) && (c <=? 32)
   || (c =? 133) || (c =? 160) || (c =? 5760)
   || (8192 <=? c) && (c <=? 8202)
   || (c =? 8232) || (c =? 8233) || (c =? 8239) || (c =? 8287)
   || (c =? 12288))%N.

Fixpoint lstrip (s : str) : str :=
  match s with
  | [] => []
  | c :: s' => if isspace c then lstrip s' else s
  end.

Definition rstrip (s : str) : str := reverse (lstrip (reverse s)).

(** [s.strip()] *)
Definition strip (s : str) : str := rstrip (lstrip s).

End PyStr.

Import PyStr.

(** ** Exceptions

    The worker catches [Exception] and inspects only [str(e)]; the class is
    kept so that the origin of a failure stays visible in statements. *)

Inductive exn :=
  | FileNotFoundError (msg : str)
  | IntegrityError (msg : str)
  | Exception (msg : str).

Definition str_of_exn (e : exn) : str :=
  match e with
  | FileNotFoundError m | IntegrityError m | Exception m => m
  end.

Inductive fallible (A : Type) :=
  | Ok (a : A)
  | Raise (e : exn).
Arguments Ok {A} a.
Arguments Raise {A} e.

(** ** [services/pdf_service.py] *)

Module PDFService.

(** The outside world of the service: the file system and the two PDF
    libraries.  Opening a file and reading a page may each raise. *)
Record env := {
  path_exists : str -> bool;                              (* os.path.exists *)
  fitz_open : str -> fallible (list (fallible str));          (* fitz.open, page.get_text() *)
  pdfplumber_open : str -> fallible (list (fallible (option str)))
                                            (* pdfplumber.open, page.extract_text() *)
}.

(** Calls the service makes to the outside world, in order. *)
Inductive call :=
  | OsPathExists (p : str)
  | FitzOpen (p : str)
  | PdfplumberOpen (p : str).

(** The dictionary returned by [extract_text_from_pdf]. *)
Record extraction := {
  text : str;
  text_length : Z;
  page_count : Z;
  method : str
}.

Definition PYMUPDF : str := Eval vm_compute in utf8 "pymupdf".
Definition PDFPLUMBER : str := Eval vm_compute in utf8 "pdfplumber".

(** [f"\n--- 第 {n} 页 ---\n"] *)
Definition page_header_l : str := Eval vm_compute in 10%N :: utf8 "--- 第 ".
Definition page_header_r : str := Eval vm_compute in utf8 " 页 ---" ++ [10%N].
Definition page_header (n : Z) : str := page_header_l ++ str_of_int n ++ page_header_r.

(** The loop over the pages of [_extract_with_pymupdf]; a page that raises
    leaves the loop through the enclosing [try]. *)
Fixpoint pymupdf_pages (page_num : Z) (pages : list (fallible str)) (text : str)
    : fallible str :=
  match pages with
  | [] => Ok text
  | Raise e :: _ => Raise e
  | Ok page_text :: rest =>
      pymupdf_pages (page_num + 1) rest (text ++ page_header (page_num + 1) ++ page_text)
  end.

Definition _extract_with_pymupdf (w : env) (file_path : str) : list call * (str * Z) :=
  ([FitzOpen file_path],
   match fitz_open w file_path with
   | Raise _ => ([], 0)
   | Ok doc =>
       let page_count := Z.of_nat (length doc) in
       match pymupdf_pages 0 doc [] with
       | Ok text => (text, page_count)
       | Raise _ => ([], 0)
       end
   end).

(** The loop of [_extract_with_pdfplumber]; [page.extract_text() or ""]. *)
Fixpoint pdfplumber_pages (page_num : Z) (pages : list (fallible (option str)))
  (text : str)   : fallible str :=
  match pages with
  | [] => Ok text
  | Raise e :: _ => Raise e
  | Ok t :: rest =>
      let page_text := default [] t in
      pdfplumber_pages (page_num + 1) rest (text ++ page_header (page_num + 1) ++ page_text)
  end.

Definition _extract_with_pdfplumber (w : env) (file_path : str)
  : list call * (str * Z) :=
  ([PdfplumberOpen file_path],
   match pdfplumber_open w file_path with
   | Raise _ => ([], 0)
   | Ok pdf =>
       let page_count := Z.of_nat (length pdf) in
       match pdfplumber_pages 0 pdf [] with
       | Ok text => (text, page_count)
       | Raise _ => ([], 0)
       end
   end).

(** [f"PDF文件不存在: {file_path}"] *)
Definition file_missing_prefix : str := Eval vm_compute in utf8 "PDF文件不存在: ".
Definition file_missing_msg (file_path : str) : str := file_missing_prefix ++ file_path.

(** [extract_text_from_pdf], with the calls it made. *)
Definition extract_text_from_pdf (w : env) (file_path : str)
  : list call * fallible extraction :=
  if negb (path_exists w file_path) then
    ([OsPathExists file_path], Raise (FileNotFoundError (file_missing_msg file_path)))
  else
    let '(c1, (text_pymupdf, page_count_pymupdf)) := _extract_with_pymupdf w file_path in
    if 100 <? len (strip text_pymupdf) then
      (OsPathExists file_path :: c1,
       Ok {| text := text_pymupdf; text_length := len text_pymupdf;
             page_count := page_count_pymupdf; method := PYMUPDF |})
    else
      let '(c2, (text_pdfplumber, page_count_pdfplumber)) :=
        _extract_with_pdfplumber w file_path in
      (OsPathExists file_path :: c1 ++ c2,
       if len text_pymupdf <? len text_pdfplumber then
         Ok {| text := text_pdfplumber; text_length := len text_pdfplumber;
               page_count := page_count_pdfplumber; method := PDFPLUMBER |}
       else
         Ok {| text := text_pymupdf; text_length := len text_pymupdf;
               page_count := page_count_pymupdf; method := PYMUPDF |}).

(** A library call that raises somewhere: on opening the file or on one of
    its pages. *)
Definition throws {A} (o : fallible (list (fallible A))) : Prop :=
  match o with
  | Raise _ => True
  | Ok pages => exists e, Raise e ∈ pages
  end.

End PDFService.

(** ** [models/__init__.py]

    The columns the pipeline reads or writes.  The bookkeeping columns
    ([original_filename], [file_size], [mime_type], [upload_type], the
    timestamps and the surrogate key of [processing_tasks]) carry no
    behaviour of the pipeline and are left out; the position of a row in
    [processing_tasks] stands for its insertion order. *)

Module Document.
Record t := {
  id : Z;
  filename : str;
  file_path : str;
  extracted_text : option str;
  text_length : Z;
  extraction_status : str;
  extraction_error : option str;
  page_count : Z;
  is_used : bool
}.
End Document.

Module ProcessingTask.
(** The JSON object stored in [result]. *)
Record result_json := {
  r_text_length : Z;
  r_page_count : Z;
  r_extraction_method : str
}.
Record t := {
  task_id : str;                 (* unique=True *)
  task_type : str;
  status : str;
  document_id : Z;
  result : option result_json;
  error_message : option str
}.
End ProcessingTask.

Definition PENDING : str := Eval vm_compute in utf8 "pending".
Definition PROCESSING : str := Eval vm_compute in utf8 "processing".
Definition COMPLETED : str := Eval vm_compute in utf8 "completed".
Definition FAILED : str := Eval vm_compute in utf8 "failed".
Definition SUCCESS : str := Eval vm_compute in utf8 "success".
Definition FAILURE : str := Eval vm_compute in utf8 "failure".
Definition PDF_EXTRACTION : str := Eval vm_compute in utf8 "pdf_extraction".

(** The two tables. *)
Record DB := {
  documents : gmap Z Document.t;
  processing_tasks : list ProcessingTask.t
}.

Definition set_documents (m : gmap Z Document.t) (db : DB) : DB :=
  {| documents := m; processing_tasks := processing_tasks db |}.
Definition set_processing_tasks (l : list ProcessingTask.t) (db : DB) : DB :=
  {| documents := documents db; processing_tasks := l |}.

(** [db.query(ProcessingTask).filter(ProcessingTask.task_id == tid).first()],
    with the position of the row. *)
Definition query_task (tid : str) (db : DB) : option (nat * ProcessingTask.t) :=
  list_find (fun t => ProcessingTask.task_id t = tid) (processing_tasks db).

(** The most recent task of a document (the head of [get_document_tasks],
    which orders by [created_at] descending). *)
Definition latest_task (document_id : Z) (db : DB) : option ProcessingTask.t :=
  last (filter (fun t => ProcessingTask.document_id t = document_id)
               (processing_tasks db)).

(** ** [celery_worker.py] *)

Module Worker.

Import Document ProcessingTask.

(** [self.request]: the task id, which Celery keeps over the retries of a
    task, and the number of retries so far.  A message that the broker
    delivers a second time carries both unchanged. *)
Record request := {
  request_id : str;
  retries : Z
}.

(** The value returned by the task on success. *)
Record task_return := {
  ret_document_id : Z;
  ret_text_length : Z;
  ret_page_count : Z;
  ret_status : str
}.

(** How one run of the task ends: it returns, it raises [e], or it raises
    the signal of [self.retry(exc, countdown, max_retries)] after the task
    was sent again. *)
Inductive outcome :=
  | Return (r : task_return)
  | Reraise (e : exn)
  | Retry (exc : exn) (countdown : Z) (max_retries : Z).

Definition FILE_MISSING : str := Eval vm_compute in utf8 "文件不存在".
Definition UNREADABLE : str := Eval vm_compute in utf8 "无法读取".

(** ["文件不存在" in str(e) or "无法读取" in str(e)] *)
Definition is_file_error (m : str) : bool :=
  contains FILE_MISSING m || contains UNREADABLE m.

(** [f"文档 {document_id} 不存在"] *)
Definition doc_missing_l : str := Eval vm_compute in utf8 "文档 ".
Definition doc_missing_r : str := Eval vm_compute in utf8 " 不存在".
Definition doc_missing_msg (document_id : Z) : str :=
  doc_missing_l ++ str_of_int document_id ++ doc_missing_r.

Section Task.

(** [pdf_service.extract_text_from_pdf] as the worker sees it: a call that
    returns the dictionary or raises. *)
Variable extract_text_from_pdf : str -> fallible PDFService.extraction.

(** [str(e)] of the [IntegrityError] the database raises for a second row
    with the same [task_id]; the text is the driver's. *)
Variable unique_violation : str -> str.

(** [db.add(task); db.commit()] under the unique index on [task_id]. *)
Definition add_task (task : ProcessingTask.t) (db : DB) : fallible DB :=
  match query_task (task_id task) db with
  | Some _ => Raise (IntegrityError (unique_violation (task_id task)))
  | None => Ok (set_processing_tasks (processing_tasks db ++ [task]) db)
  end.

Definition mark_processing (d : Document.t) : Document.t :=
  {| id := id d; filename := filename d; file_path := file_path d;
     extracted_text := extracted_text d; text_length := text_length d;
     extraction_status := PROCESSING;
     extraction_error := extraction_error d;
     page_count := page_count d; is_used := is_used d |}.

Definition mark_completed (r : PDFService.extraction) (d : Document.t) : Document.t :=
  {| id := id d; filename := filename d; file_path := file_path d;
     extracted_text := Some (PDFService.text r);
     text_length := PDFService.text_length r;
     extraction_status := COMPLETED;
     extraction_error := extraction_error d;
     page_count := PDFService.page_count r; is_used := is_used d |}.

Definition mark_failed (e : exn) (d : Document.t) : Document.t :=
  {| id := id d; filename := filename d; file_path := file_path d;
     extracted_text := extracted_text d; text_length := text_length d;
     extraction_status := FAILED;
     extraction_error := Some (str_of_exn e);
     page_count := page_count d; is_used := is_used d |}.

Definition mark_success (r : PDFService.extraction) (t : ProcessingTask.t)
  : ProcessingTask.t :=
  {| task_id := task_id t; task_type := task_type t; status := SUCCESS;
     document_id := document_id t;
     result := Some {| r_text_length := PDFService.text_length r;
                       r_page_count := PDFService.page_count r;
                       r_extraction_method := PDFService.method r |};
     error_message := error_message t |}.

Definition mark_failure (e : exn) (t : ProcessingTask.t) : ProcessingTask.t :=
  {| task_id := task_id t; task_type := task_type t; status := FAILURE;
     document_id := document_id t; result := result t;
     error_message := Some (str_of_exn e) |}.

(** [ProcessingTask(task_id=self.request.id, task_type="pdf_extraction",
    status="processing", document_id=document_id, ...)] *)
Definition new_task (req : request) (document_id : Z) : ProcessingTask.t :=
  {| task_id := request_id req; task_type := PDF_EXTRACTION;
     status := PROCESSING; document_id := document_id;
     result := None; error_message := None |}.

(** The retry logic at the end of the handler. *)
Definition retry_policy (req : request) (e : exn) : outcome :=
  if is_file_error (str_of_exn e) then Reraise e
  else
    let retry_count := retries req in
    if retry_count <? 3 then
      let wait_time := 60 * (retry_count + 1) in
      Retry e wait_time 3
    else Reraise e.

(** The [except Exception as e] handler.  [db] is the committed state it is
    entered in: every write before it was committed or, for a refused
    insertion, is dropped by [db.rollback()].  The two updates are committed
    one after the other; the database is taken to accept them, so the inner
    [except] is not entered.  It returns the states it committed, the final
    state and the outcome. *)
Definition on_exception (req : request) (document_id : Z) (db : DB) (e : exn)
  : list DB * DB * outcome :=
  let '(c1, db1) :=
    match documents db !! document_id with
    | Some document =>
        let db' := set_documents (<[document_id := mark_failed e document]> (documents db)) db in
        ([db'], db')
    | None => ([], db)
    end in
  let '(c2, db2) :=
    match query_task (request_id req) db1 with
    | Some (i, _) =>
        let db' := set_processing_tasks (alter (mark_failure e) i (processing_tasks db1)) db1 in
        ([db'], db')
    | None => ([], db1)
    end in
  (c1 ++ c2, db2, retry_policy req e).

(** One run of [extract_pdf_text_task]: the states committed on the way
    (one per [db.commit()]), the state it leaves and how it ends. *)
Definition extract_pdf_text_task (req : request) (document_id : Z) (db : DB)
  : list DB * DB * outcome :=
  let task := new_task req document_id in
  match add_task task db with
  | Raise e => on_exception req document_id db e
  | Ok db1 =>
      let row := length (processing_tasks db) in
      match documents db1 !! document_id with
      | None =>
          let '(c, db', o) :=
            on_exception req document_id db1 (Exception (doc_missing_msg document_id)) in
          (db1 :: c, db', o)
      | Some document =>
          let db2 := set_documents
                       (<[document_id := mark_processing document]> (documents db1)) db1 in
          match extract_text_from_pdf (file_path document) with
          | Raise e =>
              let '(c, db', o) := on_exception req document_id db2 e in
              (db1 :: db2 :: c, db', o)
          | Ok r =>
              let db3 :=
                {| documents :=
                     <[document_id := mark_completed r (mark_processing document)]>
                       (documents db2);
                   processing_tasks := alter (mark_success r) row (processing_tasks db2) |} in
              ([db1; db2; db3], db3,
               Return {| ret_document_id := document_id;
                         ret_text_length := PDFService.text_length r;
                         ret_page_count := PDFService.page_count r;
                         ret_status := SUCCESS |})
          end
      end
  end.

(** The exception that leaves the [try] block of the task, if one does: the
    refusal of the row by the unique index, the document that is not found,
    or what the service raised. *)
Definition raised (req : request) (document_id : Z) (db : DB) : option exn :=
  match add_task (new_task req document_id) db with
  | Raise e => Some e
  | Ok db1 =>
      match documents db1 !! document_id with
      | None => Some (Exception (doc_missing_msg document_id))
      | Some document =>
          match extract_text_from_pdf (file_path document) with
          | Raise e => Some e
          | Ok _ => None
          end
      end
  end.

(** One attempt of a chain, as recorded by [run]. *)
Record attempt := {
  att_request : request;
  att_commits : list DB;
  att_db : DB;
  att_outcome : outcome
}.

(** The chain of attempts of one submitted task.  [self.retry] sends the
    task again under the same task id with [retries] incremented; the
    worker runs it once its countdown has passed.  The chain runs alone on
    the tables.  [fuel] bounds the number of attempts followed. *)
Fixpoint run (fuel : nat) (req : request) (document_id : Z) (db : DB)
  : option (list attempt) :=
  match fuel with
  | O => None
  | S fuel' =>
      let '(c, db', o) := extract_pdf_text_task req document_id db in
      let a := {| att_request := req; att_commits := c; att_db := db'; att_outcome := o |} in
      match o with
      | Retry _ _ _ =>
          match run fuel' {| request_id := request_id req; retries := retries req + 1 |}
                    document_id db' with
          | Some rest => Some (a :: rest)
          | None => None
          end
      | _ => Some [a]
      end
  end.

(** The countdowns of the retries scheduled by a chain. *)
Definition countdowns (l : list attempt) : list Z :=
  omap (fun a => match att_outcome a with Retry _ c _ => Some c | _ => None end) l.

End Task.

(** The worker with the service of the repository behind it. *)
Definition service (w : PDFService.env) (file_path : str) : fallible PDFService.extraction :=
  snd (PDFService.extract_text_from_pdf w file_path).

End Worker.

(** ** [routers/documents.py] *)

Module Documents.

Import Document.

(** What the endpoint answers: an [HTTPException] or the JSON body. *)
Inductive response :=
  | HTTPException (status_code : Z) (detail : str)
  | Body (document_id : Z) (text : option str) (text_length : Z) (page_count : Z).

Definition NOT_FOUND : str := Eval vm_compute in utf8 "文档不存在".
Definition WAIT_PENDING : str := Eval vm_compute in utf8 "文本提取中，请稍后重试".
Definition WAIT_PROCESSING : str := Eval vm_compute in utf8 "文本提取处理中".
Definition EXTRACTION_FAILED : str := Eval vm_compute in utf8 "文本提取失败: ".
Definition UNKNOWN_STATUS : str := Eval vm_compute in utf8 "未知状态".
Definition NONE : str := Eval vm_compute in utf8 "None".

(** [f"{x}"] for a nullable text column. *)
Definition format_nullable (x : option str) : str := default NONE x.

Definition get_document_text (document_id : Z) (db : DB) : response :=
  match documents db !! document_id with
  | None => HTTPException 404 NOT_FOUND
  | Some document =>
      if bool_decide (extraction_status document = PENDING) then
        HTTPException 425 WAIT_PENDING
      else if bool_decide (extraction_status document = PROCESSING) then
        HTTPException 425 WAIT_PROCESSING
      else if bool_decide (extraction_status document = FAILED) then
        HTTPException 500 (EXTRACTION_FAILED ++ format_nullable (extraction_error document))
      else if bool_decide (extraction_status document = COMPLETED) then
        Body document_id (extracted_text document) (text_length document)
             (page_count document)
      else HTTPException 500 UNKNOWN_STATUS
  end.

(** [upload_pdf]: the row created for an uploaded file. *)
Definition new_document (i : Z) (unique_filename path : str) : Document.t :=
  {| id := i; filename := unique_filename; file_path := path;
     extracted_text := None; text_length := 0; extraction_status := PENDING;
     extraction_error := None; page_count := 1; is_used := false |}.

End Documents.

(** ** Reading the two records together *)

Module Consistency.

Import Document ProcessingTask.

(** The document and its most recent task do not contradict each other: a
    task marked success goes with a completed document, and a completed
    document never goes with a task marked failure. *)
Definition agree (document_id : Z) (db : DB) : Prop :=
  forall d t,
    documents db !! document_id = Some d ->
    latest_task document_id db = Some t ->
    (status t = SUCCESS -> extraction_status d = COMPLETED) /\
    (extraction_status d = COMPLETED -> status t ≠ FAILURE) /\
    (extraction_status d = FAILED -> status t ≠ SUCCESS).

(** Both records carry the terminal failure. *)
Definition both_failed (document_id : Z) (db : DB) : Prop :=
  (forall d, documents db !! document_id = Some d -> extraction_status d = FAILED) /\
  (exists t, latest_task document_id db = Some t /\ status t = FAILURE).

(** Both records carry the success, with the text and its figures. *)
Definition both_succeeded (document_id text_len pages : Z) (db : DB) : Prop :=
  exists d t txt,
    documents db !! document_id = Some d /\
    latest_task document_id db = Some t /\
    extraction_status d = COMPLETED /\ status t = SUCCESS /\
    extracted_text d = Some txt /\
    text_length d = text_len /\ page_count d = pages.

(** Both records are still in progress. *)
Definition both_processing (document_id : Z) (db : DB) : Prop :=
  exists d t,
    documents db !! document_id = Some d /\
    latest_task document_id db = Some t /\
    extraction_status d = PROCESSING /\ status t = PROCESSING.

(** The state a chain is in after a failed attempt: the last row of the
    table is the only one under the task id, it belongs to the document and
    is marked failure, and the document, if there is one, is marked failed. *)
Definition settled (tid : str) (document_id : Z) (db : DB) : Prop :=
  exists l0 J,
    processing_tasks db = l0 ++ [J] /\
    list_find (fun t => task_id t = tid) l0 = None /\
    task_id J = tid /\ document_id = ProcessingTask.document_id J /\
    status J = FAILURE /\
    (forall d, documents db !! document_id = Some d -> extraction_status d = FAILED).


(** What the handler leaves behind, whatever the tables held: the document,
    if there is one, is marked failed with the text of the exception, and so
    is the row found under the task id. *)
Definition handled (req : Worker.request) (document_id : Z) (e : exn) (db' : DB) : Prop :=
  (forall d, documents db' !! document_id = Some d ->
             extraction_status d = FAILED /\
             extraction_error d = Some (str_of_exn e)) /\
  exists i t, query_task (Worker.request_id req) db' = Some (i, t) /\
              status t = FAILURE /\ error_message t = Some (str_of_exn e).

(** Every completed document stores the length of the text it stores. *)
Definition length_recorded (d : Document.t) : Prop :=
  extraction_status d = COMPLETED ->
  match extracted_text d with
  | Some txt => text_length d = len txt
  | None => False
  end.

Definition lengths_recorded (db : DB) : Prop :=
  map_Forall (fun _ d => length_recorded d) (documents db).

End Consistency.

(** ** The other endpoints: [routers/documents.py], [routers/tasks.py],
    [routers/batch_processing.py] *)

Module Routers.

Import Document ProcessingTask.

(** [get_document_tasks]: the tasks of a document, newest first. *)
Definition get_document_tasks (document_id : Z) (db : DB) : list ProcessingTask.t :=
  reverse (filter (fun t => ProcessingTask.document_id t = document_id)
                  (processing_tasks db)).

Definition set_is_used (b : bool) (d : Document.t) : Document.t :=
  {| id := id d; filename := filename d; file_path := file_path d;
     extracted_text := extracted_text d; text_length := text_length d;
     extraction_status := extraction_status d;
     extraction_error := extraction_error d;
     page_count := page_count d; is_used := b |}.

Inductive usage_response :=
  | UsageError (status_code : Z) (detail : str)
  | UsageUpdated (message : str) (document_id : Z) (is_used : bool)
  | BatchUsageUpdated (message : str) (updated_count : Z) (is_used : bool).

Definition USED : str := Eval vm_compute in utf8 "已使用".
Definition UNUSED : str := Eval vm_compute in utf8 "未使用".
Definition USAGE_SET : str := Eval vm_compute in utf8 "文档使用状态已更新为 ".
Definition NO_IDS : str := Eval vm_compute in utf8 "请提供文档ID列表".
Definition NONE_FOUND : str := Eval vm_compute in utf8 "未找到指定的文档".
Definition BATCH_SET_L : str := Eval vm_compute in utf8 "成功更新 ".
Definition BATCH_SET_R : str := Eval vm_compute in utf8 " 个文档的使用状态为 ".

Definition usage_word (is_used : bool) : str := if is_used then USED else UNUSED.

(** [update_document_usage] *)
Definition update_document_usage (document_id : Z) (is_used : bool) (db : DB)
  : usage_response * DB :=
  match documents db !! document_id with
  | None => (UsageError 404 Documents.NOT_FOUND, db)
  | Some document =>
      (UsageUpdated (USAGE_SET ++ usage_word is_used) document_id is_used,
       set_documents (<[document_id := set_is_used is_used document]> (documents db)) db)
  end.

(** [db.query(Document).filter(Document.id.in_(document_ids)).all()] *)
Definition documents_in (document_ids : list Z) (db : DB) : gmap Z Document.t :=
  filter (fun kd => kd.1 ∈ document_ids) (documents db).

(** [batch_update_document_usage] *)
Definition batch_update_document_usage (document_ids : list Z) (is_used : bool)
    (db : DB) : usage_response * DB :=
  match document_ids with
  | [] => (UsageError 400 NO_IDS, db)
  | _ :: _ =>
      let found := documents_in document_ids db in
      if decide (found = ∅) then (UsageError 404 NONE_FOUND, db)
      else
        let updated_count := Z.of_nat (size found) in
        (BatchUsageUpdated
           (BATCH_SET_L ++ str_of_int updated_count ++ BATCH_SET_R
            ++ usage_word is_used) updated_count is_used,
         set_documents ((set_is_used is_used <$> found) ∪ documents db) db)
  end.

Inductive task_response :=
  | TaskError (status_code : Z) (detail : str)
  | TaskBody (t : ProcessingTask.t).

Definition TASK_NOT_FOUND : str := Eval vm_compute in utf8 "任务不存在".

(** [get_task_status] *)
Definition get_task_status (task_id : str) (db : DB) : task_response :=
  match query_task task_id db with
  | None => TaskError 404 TASK_NOT_FOUND
  | Some (_, t) => TaskBody t
  end.

(** [list_tasks]: newest first, [skip] rows left out, at most [limit] rows;
    a [task_type] that is absent or empty does not filter.  The database
    refuses a negative OFFSET or LIMIT, which is [None] here. *)
Definition list_tasks (skip limit : Z) (task_type : option str) (db : DB)
  : option (list ProcessingTask.t) :=
  let query :=
    match task_type with
    | Some (c :: ty) =>
        filter (fun t => ProcessingTask.task_type t = c :: ty) (processing_tasks db)
    | _ => processing_tasks db
    end in
  if (skip <? 0) || (limit <? 0) then None
  else Some (take (Z.to_nat limit) (drop (Z.to_nat skip) (reverse query))).

End Routers.

(** ** [routers/batch_processing.py]: sending documents to the worker again *)

Module Batch.

Import Document ProcessingTask.

Definition PDF : str := Eval vm_compute in utf8 "pdf".
Definition NO_IDS : str := Eval vm_compute in utf8 "请提供文档ID列表".
Definition TOO_MANY : str := Eval vm_compute in utf8 "一次最多处理50个文档".
Definition NO_PDF : str := Eval vm_compute in utf8 "未找到指定的PDF文档".
Definition RESTART_FAILED : str := Eval vm_compute in utf8 "重新启动任务失败: ".

(** [doc.extraction_status in ['pending', 'failed']] *)
Definition resettable (d : Document.t) : bool :=
  bool_decide (extraction_status d = PENDING)
  || bool_decide (extraction_status d = FAILED).

(** [doc.extraction_status = 'pending'; doc.extraction_error = None] *)
Definition reset (d : Document.t) : Document.t :=
  {| id := id d; filename := filename d; file_path := file_path d;
     extracted_text := extracted_text d; text_length := text_length d;
     extraction_status := PENDING; extraction_error := None;
     page_count := page_count d; is_used := is_used d |}.

Definition with_error (m : str) (d : Document.t) : Document.t :=
  {| id := id d; filename := filename d; file_path := file_path d;
     extracted_text := extracted_text d; text_length := text_length d;
     extraction_status := extraction_status d; extraction_error := Some m;
     page_count := page_count d; is_used := is_used d |}.

(** What an endpoint answers.  [Unhandled] is an exception that leaves the
    endpoint, which the framework turns into a 500. *)
Inductive response :=
  | BatchError (status_code : Z) (detail : str)
  | Unhandled (e : exn)
  | BatchStarted (total_documents processed skipped : Z)
      (processed_documents : list Z) (skipped_documents : list (Z * str))
  | NothingPending
  | Restarted (processed_count total_pending : Z) (document_ids : list Z).

(** The state of the loops: the documents as changed in the session, the
    two lists being built, and the messages handed to the broker. *)
Record loop_state := {
  l_docs : gmap Z Document.t;
  l_processed : list Z;
  l_skipped : list (Z * str);
  l_queue : list Z
}.

Section Endpoints.

(** The [upload_type] column, which the record leaves out.  It is set when
    a document is created and never written again, so it is given here by
    document id. *)
Variable upload_type : Z -> str.

(** [extract_pdf_text_task.delay(id)]: the broker takes the message, or the
    call raises. *)
Variable delay : Z -> fallible unit.

(** The loop of [batch_process_documents]: an exception of [delay] leaves
    the loop and the endpoint. *)
Fixpoint process_rows (rows : list (Z * Document.t)) (st : loop_state)
  : loop_state * option exn :=
  match rows with
  | [] => (st, None)
  | (i, doc) :: rest =>
      if resettable doc then
        let docs := <[i := reset doc]> (l_docs st) in
        match delay i with
        | Raise e =>
            ({| l_docs := docs; l_processed := l_processed st;
                l_skipped := l_skipped st; l_queue := l_queue st |}, Some e)
        | Ok _ =>
            process_rows rest
              {| l_docs := docs; l_processed := l_processed st ++ [i];
                 l_skipped := l_skipped st; l_queue := l_queue st ++ [i] |}
        end
      else
        process_rows rest
          {| l_docs := l_docs st; l_processed := l_processed st;
             l_skipped := l_skipped st ++ [(i, extraction_status doc)];
             l_queue := l_queue st |}
  end.

(** [batch_process_documents].  The rows come in the order the database
    gives them, here the order of [map_to_list].  The answer comes with the
    committed tables and the messages handed to the broker; without a commit
    the changes of the session are dropped. *)
Definition batch_process_documents (document_ids : option (list Z)) (db : DB)
  : response * DB * list Z :=
  match document_ids with
  | None | Some [] => (BatchError 400 NO_IDS, db, [])
  | Some ids =>
      if 50 <? Z.of_nat (length ids) then (BatchError 400 TOO_MANY, db, [])
      else
        let found :=
          filter (fun kd => kd.1 ∈ ids /\ upload_type kd.1 = PDF) (documents db) in
        if decide (found = ∅) then (BatchError 404 NO_PDF, db, [])
        else
          match process_rows (map_to_list found)
                  {| l_docs := documents db; l_processed := [];
                     l_skipped := []; l_queue := [] |} with
          | (st, Some e) => (Unhandled e, db, l_queue st)
          | (st, None) =>
              (BatchStarted (Z.of_nat (size found))
                 (Z.of_nat (length (l_processed st)))
                 (Z.of_nat (length (l_skipped st)))
                 (l_processed st) (l_skipped st),
               set_documents (l_docs st) db, l_queue st)
          end
  end.

(** The loop of [process_all_pending_documents]: an exception of [delay] is
    written into the document and the loop goes on. *)
Fixpoint restart_rows (rows : list (Z * Document.t))
    (docs : gmap Z Document.t) (processed_count : Z) (queue : list Z)
  : gmap Z Document.t * Z * list Z :=
  match rows with
  | [] => (docs, processed_count, queue)
  | (i, doc) :: rest =>
      match delay i with
      | Ok _ =>
          restart_rows rest (<[i := reset doc]> docs) (processed_count + 1)
            (queue ++ [i])
      | Raise e =>
          restart_rows rest
            (<[i := with_error (RESTART_FAILED ++ str_of_exn e) (reset doc)]> docs)
            processed_count queue
      end
  end.

(** [process_all_pending_documents] *)
Definition process_all_pending_documents (db : DB) : response * DB * list Z :=
  let pending :=
    filter (fun kd => upload_type kd.1 = PDF /\ resettable kd.2 = true)
           (documents db) in
  if decide (pending = ∅) then (NothingPending, db, [])
  else
    let '(docs, processed_count, queue) :=
      restart_rows (map_to_list pending) (documents db) 0 [] in
    (Restarted processed_count (Z.of_nat (size pending)) (map_to_list pending).*1,
     set_documents docs db, queue).

End Endpoints.

End Batch.

(** ** The text built from pages that all read *)

Module Pages.

(** Each page text preceded by its header, the pages numbered from
    [first + 1]. *)
Fixpoint joined (first : Z) (texts : list str) : str :=
  match texts with
  | [] => []
  | t :: ts => PDFService.page_header (first + 1) ++ t ++ joined (first + 1) ts
  end.

End Pages.

(** ** What an attempt leaves alone *)

Module Frame.

Import Document ProcessingTask.

(** [db'] differs from [db] in the documents table at most in the
    extraction columns of [document_id]: no document is added or removed,
    the other documents are the same, and the document keeps its identity,
    its file and its usage flag. *)
Definition documents_kept (document_id : Z) (db db' : DB) : Prop :=
  (forall j, j ≠ document_id -> documents db' !! j = documents db !! j) /\
  match documents db !! document_id, documents db' !! document_id with
  | Some d, Some d' =>
      id d' = id d /\ filename d' = filename d /\
      file_path d' = file_path d /\ is_used d' = is_used d
  | None, None => True
  | _, _ => False
  end.

(** [db'] differs from [db] in the tasks table at most in the row under
    [tid], which keeps its place, its task id, its type and its document,
    and in one row added at the end. *)
Definition tasks_kept (tid : str) (db db' : DB) : Prop :=
  (length (processing_tasks db) <= length (processing_tasks db')
     <= S (length (processing_tasks db)))%nat /\
  forall i t, processing_tasks db !! i = Some t ->
    exists t', processing_tasks db' !! i = Some t' /\
      task_id t' = task_id t /\ task_type t' = task_type t /\
      ProcessingTask.document_id t' = ProcessingTask.document_id t /\
      (task_id t ≠ tid -> t' = t).

(** No two rows of the tasks table share a task id. *)
Definition unique_task_ids (db : DB) : Prop :=
  NoDup (task_id <$> processing_tasks db).

End Frame.

(** ** Sample worlds *)

Module Sample.

Import Worker.

Definition a_pdf : str := Eval vm_compute in utf8 "uploads/pdf/a.pdf".
Definition gone_pdf : str := Eval vm_compute in utf8 "uploads/pdf/gone.pdf".
Definition t1 : str := Eval vm_compute in utf8 "7f3c-0001".
Definition t2 : str := Eval vm_compute in utf8 "7f3c-0002".

(** A file system holding [a_pdf] only; the fast library reads one short
    page, the layout-aware one a longer text. *)
Definition w : PDFService.env :=
  {| PDFService.path_exists := fun p => bool_decide (p = a_pdf);
     PDFService.fitz_open := fun _ => Ok [Ok (utf8 "hello")];
     PDFService.pdfplumber_open := fun _ => Ok [Ok (Some (utf8 "hello world"))] |}.

(** The text PostgreSQL reports through SQLAlchemy for a duplicate key. *)
Definition pg_unique_violation (tid : str) : str :=
  utf8 "(psycopg2.errors.UniqueViolation) duplicate key value violates unique constraint ix_processing_tasks_task_id DETAIL:  Key (task_id)=("
  ++ tid ++ utf8 ") already exists.".

Definition db0 : DB :=
  {| documents := {[ 1 := Documents.new_document 1 (utf8 "a.pdf") a_pdf;
                     2 := Documents.new_document 2 (utf8 "gone.pdf") gone_pdf ]};
     processing_tasks := [] |}.

(** The same file system with both libraries failing: the fast one on
    opening the file, the layout-aware one on its second page. *)
Definition broken : str := Eval vm_compute in utf8 "cannot open broken document".
Definition w_broken : PDFService.env :=
  {| PDFService.path_exists := fun p => bool_decide (p = a_pdf);
     PDFService.fitz_open := fun _ => Raise (Exception broken);
     PDFService.pdfplumber_open :=
       fun _ => Ok [Ok (Some (utf8 "page one")); Raise (Exception broken)] |}.

(** An extraction that fails for a passing reason on every call. *)
Definition out_of_memory : str := Eval vm_compute in utf8 "cannot allocate memory".
Definition flaky (_ : str) : fallible PDFService.extraction :=
  Raise (Exception out_of_memory).

Definition task := extract_pdf_text_task (service w) pg_unique_violation.
Definition chain := run (service w) pg_unique_violation.

(** The tables as the run of task [t1] on document 1 commits them at line
    60: the row of the task is stored and the document is processing.  A
    worker that is lost during the extraction leaves them so. *)
Definition db_interrupted : DB :=
  {| documents :=
       <[1 := mark_processing (Documents.new_document 1 (utf8 "a.pdf") a_pdf)]>
         (documents db0);
     processing_tasks := [new_task {| request_id := t1; retries := 0 |} 1] |}.

(** The tables after task [t1] has run on document 1, and after a second
    task [t2], submitted for the same document, has run as well. *)
Definition db_once : DB := (task {| request_id := t1; retries := 0 |} 1 db0).1.2.
Definition db_twice : DB := (task {| request_id := t2; retries := 0 |} 1 db_once).1.2.

End Sample.

Example utf8_len : len (utf8 "文件不存在") = 5. Proof. reflexivity. Qed.
Example utf8_cp : utf8 "文A" = [25991%N; 65%N]. Proof. reflexivity. Qed.
Example str_of_int_ex : str_of_int (-120) = utf8 "-120" /\ str_of_int 0 = utf8 "0".
Proof. split; reflexivity. Qed.
Example strip_ex : strip (utf8 "  a b
 ") = utf8 "a b".
Proof. reflexivity. Qed.

(** [db_interrupted] is the second state the first run of [t1] commits. *)
Example interrupted_is_committed :
  (Sample.task {| Worker.request_id := Sample.t1; Worker.retries := 0 |}
     1 Sample.db0).1.1 !! 1%nat = Some Sample.db_interrupted.
Proof. vm_compute. reflexivity. Qed.

(** Both runs behind [db_twice] return. *)
Example twice_returned :
  exists r1 r2,
    (Sample.task {| Worker.request_id := Sample.t1; Worker.retries := 0 |}
       1 Sample.db0).2 = Worker.Return r1 /\
    (Sample.task {| Worker.request_id := Sample.t2; Worker.retries := 0 |}
       1 Sample.db_once).2 = Worker.Return r2.
Proof. eexists _, _. split; vm_compute; reflexivity. Qed.

(** * Properties *)

(** ** Strings *)

Section StrFacts.

Lemma digits_ascii (d : Decimal.uint) : Forall (fun c => (c < 128)%N) (digits d).
Proof. induction d; simpl; constructor; (lia || assumption). Qed.

Lemma str_of_int_ascii (z : Z) : Forall (fun c => (c < 128)%N) (str_of_int z).
Proof.
  unfold str_of_int. destruct (Z.to_int z); [|constructor; [lia|]];
    apply digits_ascii.
Qed.

Lemma startswith_head_ne (c h : N) (hay needle : str) :
  c ≠ h -> startswith (c :: hay) (h :: needle) = false.
Proof. intros Hne. simpl. destruct (N.eqb_spec h c); congruence. Qed.

(** A stretch of the haystack free of the first character of the needle
    cannot hold the start of an occurrence. *)
Lemma contains_skip (h : N) (needle pre hay : str) :
  Forall (fun c => c ≠ h) pre ->
  contains (h :: needle) (pre ++ hay) = contains (h :: needle) hay.
Proof.
  induction 1 as [|c pre Hc _ IH]; [reflexivity|].
  change (contains (h :: needle) ((c :: pre) ++ hay))
    with (startswith (c :: pre ++ hay) (h :: needle)
          || contains (h :: needle) (pre ++ hay)).
  rewrite startswith_head_ne by assumption. exact IH.
Qed.

Lemma len_nonneg (s : str) : 0 <= len s.
Proof. unfold len. lia. Qed.

Lemma len_app (s1 s2 : str) : len (s1 ++ s2) = len s1 + len s2.
Proof. unfold len. rewrite length_app. lia. Qed.

End StrFacts.

(** ** The selector *)

Section Selector.

Import PDFService.

Variable w : env.
Variable file_path : str.

(** What the two extractors give for [file_path]. *)
Let primary : str * Z := (_extract_with_pymupdf w file_path).2.
Let secondary : str * Z := (_extract_with_pdfplumber w file_path).2.

Lemma extract_missing :
  path_exists w file_path = false ->
  extract_text_from_pdf w file_path =
    ([OsPathExists file_path], Raise (FileNotFoundError (file_missing_msg file_path))).
Proof. intros H. unfold extract_text_from_pdf. rewrite H. reflexivity. Qed.

Lemma extract_primary :
  path_exists w file_path = true ->
  100 < len (strip primary.1) ->
  extract_text_from_pdf w file_path =
    ([OsPathExists file_path; FitzOpen file_path],
     Ok {| text := primary.1; text_length := len primary.1;
           page_count := primary.2; method := PYMUPDF |}).
Proof.
  intros He Hq. unfold extract_text_from_pdf. rewrite He. simpl negb. cbv iota.
  subst primary. unfold _extract_with_pymupdf at 1.
  destruct (_extract_with_pymupdf w file_path) as [c [ta pa]] eqn:E.
  unfold _extract_with_pymupdf in E. injection E as <- E. rewrite E in *.
  simpl in Hq |- *. apply Z.ltb_lt in Hq. rewrite Hq. reflexivity.
Qed.

Lemma extract_fallback :
  path_exists w file_path = true ->
  len (strip primary.1) <= 100 ->
  extract_text_from_pdf w file_path =
    ([OsPathExists file_path; FitzOpen file_path; PdfplumberOpen file_path],
     if len primary.1 <? len secondary.1 then
       Ok {| text := secondary.1; text_length := len secondary.1;
             page_count := secondary.2; method := PDFPLUMBER |}
     else
       Ok {| text := primary.1; text_length := len primary.1;
             page_count := primary.2; method := PYMUPDF |}).
Proof.
  intros He Hq. unfold extract_text_from_pdf. rewrite He. simpl negb. cbv iota.
  subst primary secondary.
  unfold _extract_with_pymupdf at 1, _extract_with_pdfplumber at 1.
  destruct (_extract_with_pymupdf w file_path) as [c [ta pa]] eqn:E.
  unfold _extract_with_pymupdf in E. injection E as <- E. rewrite E in *.
  destruct (_extract_with_pdfplumber w file_path) as [c' [tb pb]] eqn:E'.
  unfold _extract_with_pdfplumber in E'. injection E' as <- E'. rewrite E' in *.
  simpl in Hq |- *. apply Z.ltb_ge in Hq. rewrite Hq. reflexivity.
Qed.

End Selector.

Section Extractors.

Import PDFService.

Lemma pymupdf_pages_raise (pages : list (fallible str)) :
  (exists e, Raise e ∈ pages) ->
  forall n text, exists e, pymupdf_pages n pages text = Raise e.
Proof.
  intros [e He]. induction pages as [|[t|e'] pages IH]; intros n text.
  - inversion He.
  - simpl. apply IH. apply elem_of_cons in He as [He|He]; [discriminate|assumption].
  - simpl. eauto.
Qed.

Lemma pdfplumber_pages_raise (pages : list (fallible (option str))) :
  (exists e, Raise e ∈ pages) ->
  forall n text, exists e, pdfplumber_pages n pages text = Raise e.
Proof.
  intros [e He]. induction pages as [|[t|e'] pages IH]; intros n text.
  - inversion He.
  - simpl. apply IH. apply elem_of_cons in He as [He|He]; [discriminate|assumption].
  - simpl. eauto.
Qed.

Lemma pymupdf_swallows (w : env) (p : str) :
  throws (fitz_open w p) -> (_extract_with_pymupdf w p).2 = ([], 0).
Proof.
  unfold throws, _extract_with_pymupdf. simpl.
  destruct (fitz_open w p) as [doc|e]; [|reflexivity].
  intros H. destruct (pymupdf_pages_raise doc H 0 []) as [e ->]. reflexivity.
Qed.

Lemma pdfplumber_swallows (w : env) (p : str) :
  throws (pdfplumber_open w p) -> (_extract_with_pdfplumber w p).2 = ([], 0).
Proof.
  unfold throws, _extract_with_pdfplumber. simpl.
  destruct (pdfplumber_open w p) as [doc|e]; [|reflexivity].
  intros H. destruct (pdfplumber_pages_raise doc H 0 []) as [e ->]. reflexivity.
Qed.

End Extractors.

(** C5. On a file that exists the selector calls the primary extractor
    first.  When the stripped primary text is longer than 100 characters it
    returns the primary text tagged "pymupdf" and the secondary extractor is
    not called.  Otherwise the secondary extractor is called and the strictly
    longer of the two texts is returned with its method, the primary one when
    the lengths are equal. *)
Theorem selector_strategy (w : PDFService.env) (file_path : str) :
  PDFService.path_exists w file_path = true ->
  let a := (PDFService._extract_with_pymupdf w file_path).2 in
  let b := (PDFService._extract_with_pdfplumber w file_path).2 in
  let calls := (PDFService.extract_text_from_pdf w file_path).1 in
  let r := (PDFService.extract_text_from_pdf w file_path).2 in
  (exists rest, calls = PDFService.OsPathExists file_path
                        :: PDFService.FitzOpen file_path :: rest) /\
  (100 < len (strip a.1) ->
     (forall q, PDFService.PdfplumberOpen q ∉ calls) /\
     r = Ok {| PDFService.text := a.1; PDFService.text_length := len a.1;
               PDFService.page_count := a.2;
               PDFService.method := PDFService.PYMUPDF |}) /\
  (len (strip a.1) <= 100 ->
     PDFService.PdfplumberOpen file_path ∈ calls /\
     (len a.1 < len b.1 ->
        r = Ok {| PDFService.text := b.1; PDFService.text_length := len b.1;
                  PDFService.page_count := b.2;
                  PDFService.method := PDFService.PDFPLUMBER |}) /\
     (len b.1 <= len a.1 ->
        r = Ok {| PDFService.text := a.1; PDFService.text_length := len a.1;
                  PDFService.page_count := a.2;
                  PDFService.method := PDFService.PYMUPDF |})).
Proof.
  intros He a b calls r.
  destruct (Z.lt_ge_cases 100 (len (strip a.1))) as [Hq|Hq]; subst calls r.
  - rewrite (extract_primary w file_path He Hq). cbn [fst snd].
    split; [eauto|]. split; [|intros; lia].
    intros _. split; [|reflexivity].
    intros q Hin. repeat (apply elem_of_cons in Hin as [Hin|Hin]; [discriminate|]).
    inversion Hin.
  - rewrite (extract_fallback w file_path He Hq). cbn [fst snd].
    split; [eauto|]. split; [intros; lia|].
    intros _. split; [set_solver|]. split; intros Hl.
    + apply Z.ltb_lt in Hl. fold a b. rewrite Hl. reflexivity.
    + apply Z.ltb_ge in Hl. fold a b. rewrite Hl. reflexivity.
Qed.

Lemma selector_strategy_witness :
  (PDFService.extract_text_from_pdf Sample.w Sample.a_pdf).2 =
    Ok {| PDFService.text :=
            (PDFService._extract_with_pdfplumber Sample.w Sample.a_pdf).2.1;
          PDFService.text_length := 26;
          PDFService.page_count := 1;
          PDFService.method := PDFService.PDFPLUMBER |}.
Proof.
  assert (He : PDFService.path_exists Sample.w Sample.a_pdf = true) by reflexivity.
  pose proof (selector_strategy Sample.w Sample.a_pdf He) as H. cbv zeta in H.
  destruct H as (_ & _ & H).
  destruct H as (_ & H & _); [vm_compute; discriminate|].
  rewrite H; [reflexivity|vm_compute; reflexivity].
Defined.

(** C7. On a path that exists the selector returns a dictionary and does
    not raise: an exception inside either extractor, on opening the file or
    on a page, turns into the empty text with 0 pages.  So the selector can
    raise only for a path that does not exist. *)
Theorem selector_total (w : PDFService.env) (file_path : str) :
  PDFService.path_exists w file_path = true ->
  (exists r, (PDFService.extract_text_from_pdf w file_path).2 = Ok r) /\
  (PDFService.throws (PDFService.fitz_open w file_path) ->
     (PDFService._extract_with_pymupdf w file_path).2 = ([], 0)) /\
  (PDFService.throws (PDFService.pdfplumber_open w file_path) ->
     (PDFService._extract_with_pdfplumber w file_path).2 = ([], 0)).
Proof.
  intros He. split; [|split; [apply pymupdf_swallows|apply pdfplumber_swallows]].
  destruct (Z.lt_ge_cases 100
              (len (strip (PDFService._extract_with_pymupdf w file_path).2.1)))
    as [Hq|Hq].
  - rewrite (extract_primary w file_path He Hq). simpl. eauto.
  - rewrite (extract_fallback w file_path He Hq). simpl.
    destruct (_ <? _); eauto.
Qed.

Lemma selector_total_witness :
  (PDFService.extract_text_from_pdf Sample.w_broken Sample.a_pdf).2 =
    Ok {| PDFService.text := []; PDFService.text_length := 0;
          PDFService.page_count := 0; PDFService.method := PDFService.PYMUPDF |}
  /\ (PDFService._extract_with_pymupdf Sample.w_broken Sample.a_pdf).2 = ([], 0)
  /\ (PDFService._extract_with_pdfplumber Sample.w_broken Sample.a_pdf).2 = ([], 0).
Proof.
  assert (He : PDFService.path_exists Sample.w_broken Sample.a_pdf = true)
    by reflexivity.
  destruct (selector_total Sample.w_broken Sample.a_pdf He) as ([r Hr] & Ha & Hb).
  split; [reflexivity|]. split.
  - apply Ha. exact I.
  - apply Hb. exists (Exception Sample.broken). set_solver.
Defined.

(** ** Reading the extracted text *)

Section Reading.

Import Document Documents.

Lemma statuses_distinct :
  PENDING ≠ PROCESSING /\ PENDING ≠ FAILED /\ PENDING ≠ COMPLETED /\
  PROCESSING ≠ FAILED /\ PROCESSING ≠ COMPLETED /\ FAILED ≠ COMPLETED.
Proof. repeat split; discriminate. Qed.

Lemma failed_detail_not_unknown (m : str) : EXTRACTION_FAILED ++ m ≠ UNKNOWN_STATUS.
Proof. discriminate. Qed.

End Reading.

(** C9. For a stored document, reading its text answers 425 (not ready)
    exactly when the status is "pending" or "processing", answers 500 with
    the stored extraction error in the detail exactly when the status is
    "failed", and answers the text with text_length and page_count exactly
    when the status is "completed". *)
Theorem get_document_text_by_status (db : DB) (document_id : Z) (d : Document.t) :
  documents db !! document_id = Some d ->
  ((exists detail, Documents.get_document_text document_id db
                   = Documents.HTTPException 425 detail)
     <-> Document.extraction_status d = PENDING
         \/ Document.extraction_status d = PROCESSING) /\
  (Documents.get_document_text document_id db
     = Documents.HTTPException 500
         (Documents.EXTRACTION_FAILED
            ++ Documents.format_nullable (Document.extraction_error d))
     <-> Document.extraction_status d = FAILED) /\
  (Documents.get_document_text document_id db
     = Documents.Body document_id (Document.extracted_text d)
         (Document.text_length d) (Document.page_count d)
     <-> Document.extraction_status d = COMPLETED).
Proof.
  intros Hd. unfold Documents.get_document_text. rewrite Hd.
  destruct statuses_distinct as (H1 & H2 & H3 & H4 & H5 & H6).
  pose proof (failed_detail_not_unknown
                (Documents.format_nullable (Document.extraction_error d))) as Hu.
  repeat case_bool_decide; repeat split;
    try (intros [? ?]); try intros [?|?]; intros;
    try discriminate; try congruence; eauto.
Qed.

Lemma get_document_text_by_status_witness :
  let db := (Sample.task {| Worker.request_id := Sample.t1; Worker.retries := 0 |}
               1 Sample.db0).1.2 in
  exists d, documents db !! 1 = Some d /\
    Document.extraction_status d = COMPLETED /\
    Documents.get_document_text 1 db
      = Documents.Body 1 (Document.extracted_text d) (Document.text_length d)
          (Document.page_count d).
Proof.
  intros db. eexists. split; [vm_compute; reflexivity|].
  split; [reflexivity|].
  eapply (proj2 (proj2 (proj2 (get_document_text_by_status db 1 _ _)))).
  reflexivity.
  Unshelve. vm_compute; reflexivity.
Defined.

(** ** The tables *)

Section Tables.

Import Document ProcessingTask.

Lemma find_task_snoc (tid : str) (l : list ProcessingTask.t) (J : ProcessingTask.t) :
  list_find (fun t => task_id t = tid) l = None ->
  task_id J = tid ->
  list_find (fun t => task_id t = tid) (l ++ [J]) = Some (length l, J).
Proof.
  intros Hl HJ. rewrite list_find_app_r by assumption.
  simpl. rewrite decide_True by assumption. reflexivity.
Qed.

Lemma find_task_alter (tid : str) (l : list ProcessingTask.t) (i : nat)
    (t : ProcessingTask.t) (f : ProcessingTask.t -> ProcessingTask.t) :
  (forall x, task_id (f x) = task_id x) ->
  list_find (fun t => task_id t = tid) l = Some (i, t) ->
  list_find (fun t => task_id t = tid) (alter f i l) = Some (i, f t).
Proof.
  intros Hf (Hi & Ht & Hlt)%list_find_Some. apply list_find_Some.
  split; [|split].
  - rewrite list_lookup_alter_eq, Hi. reflexivity.
  - rewrite Hf. assumption.
  - intros j y Hj Hji. rewrite list_lookup_alter_ne in Hj by lia. eauto.
Qed.

Lemma alter_snoc {A} (f : A -> A) (l : list A) (x : A) :
  alter f (length l) (l ++ [x]) = l ++ [f x].
Proof.
  replace (length l) with (length l + 0)%nat by lia.
  rewrite alter_app_r. reflexivity.
Qed.

Lemma latest_task_snoc (document_id : Z) (m : gmap Z Document.t)
    (l : list ProcessingTask.t) (J : ProcessingTask.t) :
  document_id = ProcessingTask.document_id J ->
  latest_task document_id {| documents := m; processing_tasks := l ++ [J] |} = Some J.
Proof.
  intros HJ. unfold latest_task. simpl. rewrite filter_app.
  rewrite filter_cons, decide_True by (symmetry; assumption).
  rewrite filter_nil. apply last_snoc.
Qed.

End Tables.

(** ** One attempt *)

Section Attempt.

Import Document ProcessingTask Worker Consistency.

Variable extract : str -> fallible PDFService.extraction.
Variable unique_violation : str -> str.

Lemma retry_policy_retry (req : request) (e exc : exn) (countdown max_retries : Z) :
  retry_policy req e = Retry exc countdown max_retries <->
  is_file_error (str_of_exn e) = false /\ retries req < 3 /\
  exc = e /\ countdown = 60 * (retries req + 1) /\ max_retries = 3.
Proof.
  unfold retry_policy. destruct (is_file_error _).
  - split; [discriminate|]. intros [? _]. discriminate.
  - destruct (Z.ltb_spec (retries req) 3).
    + split; [intros [= <- <- <-]; auto|].
      intros (_ & _ & -> & -> & ->). reflexivity.
    + split; [discriminate|]. intros (_ & ? & _). lia.
Qed.

Lemma retry_policy_no_return (req : request) (e : exn) (r : task_return) :
  retry_policy req e ≠ Return r.
Proof. unfold retry_policy. repeat destruct (_ : bool); discriminate. Qed.

(** The handler, once the row of the task is known. *)
Lemma on_exception_eq (req : request) (document_id : Z) (db : DB) (e : exn)
    (i : nat) (t : ProcessingTask.t) :
  query_task (request_id req) db = Some (i, t) ->
  on_exception req document_id db e =
    let tasks' := alter (mark_failure e) i (processing_tasks db) in
    match documents db !! document_id with
    | Some d =>
        let m := <[document_id := mark_failed e d]> (documents db) in
        ([ {| documents := m; processing_tasks := processing_tasks db |};
           {| documents := m; processing_tasks := tasks' |} ],
         {| documents := m; processing_tasks := tasks' |},
         retry_policy req e)
    | None =>
        ([ {| documents := documents db; processing_tasks := tasks' |} ],
         {| documents := documents db; processing_tasks := tasks' |},
         retry_policy req e)
    end.
Proof.
  intros Hq. unfold on_exception, query_task in *.
  destruct (documents db !! document_id); simpl; rewrite Hq; reflexivity.
Qed.

(** An attempt under a task id that is already in the table stops at the
    insertion of its row. *)
Lemma attempt_duplicate (req : request) (document_id : Z) (db : DB)
    (i : nat) (t : ProcessingTask.t) :
  query_task (request_id req) db = Some (i, t) ->
  extract_pdf_text_task extract unique_violation req document_id db =
    on_exception req document_id db
      (IntegrityError (unique_violation (request_id req))).
Proof.
  intros Hq. unfold extract_pdf_text_task, add_task. simpl. rewrite Hq. reflexivity.
Qed.

(** An attempt under a task id that is not in the table yet. *)
Lemma attempt_fresh (req : request) (document_id : Z) (db : DB) :
  query_task (request_id req) db = None ->
  extract_pdf_text_task extract unique_violation req document_id db =
    let J := new_task req document_id in
    let tasks := processing_tasks db in
    let db1 := {| documents := documents db; processing_tasks := tasks ++ [J] |} in
    match documents db !! document_id with
    | None =>
        let e := Exception (doc_missing_msg document_id) in
        let db' := {| documents := documents db;
                      processing_tasks := tasks ++ [mark_failure e J] |} in
        ([db1; db'], db', retry_policy req e)
    | Some d =>
        let m2 := <[document_id := mark_processing d]> (documents db) in
        let db2 := {| documents := m2; processing_tasks := tasks ++ [J] |} in
        match extract (file_path d) with
        | Raise e =>
            let m3 := <[document_id := mark_failed e (mark_processing d)]> m2 in
            let db' := {| documents := m3;
                          processing_tasks := tasks ++ [mark_failure e J] |} in
            ([db1; db2; {| documents := m3; processing_tasks := tasks ++ [J] |}; db'],
             db', retry_policy req e)
        | Ok r =>
            let db' :=
              {| documents :=
                   <[document_id := mark_completed r (mark_processing d)]> m2;
                 processing_tasks := tasks ++ [mark_success r J] |} in
            ([db1; db2; db'], db',
             Return {| ret_document_id := document_id;
                       ret_text_length := PDFService.text_length r;
                       ret_page_count := PDFService.page_count r;
                       ret_status := SUCCESS |})
        end
    end.
Proof.
  intros Hq. unfold query_task in Hq.
  pose proof (find_task_snoc _ _ (new_task req document_id) Hq eq_refl) as Hq1.
  unfold extract_pdf_text_task, add_task, query_task. cbv zeta.
  change (task_id (new_task req document_id)) with (request_id req). rewrite Hq.
  unfold set_processing_tasks. cbn [documents processing_tasks].
  destruct (documents db !! document_id) as [d|] eqn:Hd.
  - destruct (extract (file_path d)) as [r|e].
    + unfold set_documents. cbn [documents processing_tasks].
      rewrite alter_snoc. reflexivity.
    + erewrite on_exception_eq by exact Hq1.
      unfold set_documents. cbn [documents processing_tasks].
      rewrite lookup_insert_eq, alter_snoc. reflexivity.
  - erewrite on_exception_eq by exact Hq1.
    cbn [documents processing_tasks]. rewrite Hd, alter_snoc. reflexivity.
Qed.

Local Ltac each_commit :=
  repeat (first [apply List.Forall_nil | apply List.Forall_cons]).

Local Ltac agree_snoc :=
  let d0 := fresh "d" in let t0 := fresh "t" in
  let Hd0 := fresh "Hd" in let Ht0 := fresh "Ht" in
  intros d0 t0 Hd0 Ht0;
  rewrite latest_task_snoc in Ht0 by reflexivity;
  injection Ht0 as <-;
  cbn [documents] in Hd0;
  rewrite ?lookup_insert_eq in Hd0;
  try (injection Hd0 as <-);
  cbn; repeat split; intros;
  try discriminate; try reflexivity;
  try match goal with H : _ = _ |- _ => discriminate H end.

Lemma settled_both_failed (tid : str) (document_id : Z) (db : DB) :
  settled tid document_id db -> both_failed document_id db.
Proof.
  intros (l0 & J & Hl & _ & _ & HJ & Hs & Hd). split; [exact Hd|].
  exists J. split; [|exact Hs].
  destruct db as [m l]. simpl in Hl. subst l. apply latest_task_snoc. exact HJ.
Qed.

Lemma settled_agree (tid : str) (document_id : Z) (db : DB) :
  settled tid document_id db -> agree document_id db.
Proof.
  intros Hs d t Hd Ht. apply settled_both_failed in Hs as [Hf (t' & Ht' & Hst)].
  rewrite Ht in Ht'. injection Ht' as <-. specialize (Hf d Hd).
  rewrite Hf, Hst. repeat split; intros; discriminate.
Qed.

Lemma settled_query (tid : str) (document_id : Z) (db : DB) :
  settled tid document_id db ->
  exists i t, query_task tid db = Some (i, t).
Proof.
  intros (l0 & J & Hl & Hn & HJ & _). unfold query_task. rewrite Hl.
  eauto using find_task_snoc.
Qed.

(** The first attempt of a chain when the document is not in the table. *)
Lemma first_attempt_no_document (req : request) (document_id : Z) (db : DB) :
  query_task (request_id req) db = None ->
  documents db !! document_id = None ->
  exists c db',
    extract_pdf_text_task extract unique_violation req document_id db
      = (c, db', retry_policy req (Exception (doc_missing_msg document_id))) /\
    Forall (agree document_id) c /\
    settled (request_id req) document_id db' /\
    length (processing_tasks db') = S (length (processing_tasks db)).
Proof.
  intros Hq Hd. rewrite (attempt_fresh _ _ _ Hq), Hd. cbv zeta.
  eexists _, _. split; [reflexivity|]. split; [|split].
  - each_commit; intros d t Hd'; simpl in Hd'; congruence.
  - eexists _, _. split; [reflexivity|].
    repeat split; try assumption; try reflexivity.
    intros d Hd'. simpl in Hd'. congruence.
  - simpl. rewrite length_app. simpl. lia.
Qed.

(** The first attempt of a chain when the extraction raises. *)
Lemma first_attempt_raises (req : request) (document_id : Z) (db : DB)
    (d : Document.t) (e : exn) :
  query_task (request_id req) db = None ->
  documents db !! document_id = Some d ->
  extract (file_path d) = Raise e ->
  exists c db',
    extract_pdf_text_task extract unique_violation req document_id db
      = (c, db', retry_policy req e) /\
    Forall (agree document_id) c /\
    settled (request_id req) document_id db' /\
    documents db' !! document_id = Some (mark_failed e (mark_processing d)) /\
    exists s, c = s ++ [db'].
Proof.
  intros Hq Hd He. rewrite (attempt_fresh _ _ _ Hq), Hd, He. cbv zeta.
  eexists _, _. split; [reflexivity|]. split; [|split; [|split]].
  - each_commit; agree_snoc.
  - eexists _, _. split; [reflexivity|].
    repeat split; try assumption; try reflexivity.
    intros d' Hd'. simpl in Hd'. rewrite lookup_insert_eq in Hd'.
    injection Hd' as <-. reflexivity.
  - simpl. apply lookup_insert_eq.
  - eexists [_; _; _]. reflexivity.
Qed.

(** The first attempt of a chain when the extraction returns. *)
Lemma first_attempt_returns (req : request) (document_id : Z) (db : DB)
    (d : Document.t) (r : PDFService.extraction) :
  query_task (request_id req) db = None ->
  documents db !! document_id = Some d ->
  extract (file_path d) = Ok r ->
  exists s1 s2 db',
    extract_pdf_text_task extract unique_violation req document_id db
      = ([s1; s2; db'], db',
         Return {| ret_document_id := document_id;
                   ret_text_length := PDFService.text_length r;
                   ret_page_count := PDFService.page_count r;
                   ret_status := SUCCESS |}) /\
    Forall (agree document_id) [s1; s2; db'] /\
    both_processing document_id s2 /\
    both_succeeded document_id (PDFService.text_length r)
      (PDFService.page_count r) db' /\
    documents db' !! document_id = Some (mark_completed r (mark_processing d)).
Proof.
  intros Hq Hd He. rewrite (attempt_fresh _ _ _ Hq), Hd, He. cbv zeta.
  eexists _, _, _. split; [reflexivity|]. split; [|split; [|split]].
  - each_commit; agree_snoc.
  - eexists _, _. split; [simpl; apply lookup_insert_eq|].
    split; [apply latest_task_snoc; reflexivity|]. split; reflexivity.
  - eexists _, _, _. split; [simpl; apply lookup_insert_eq|].
    split; [apply latest_task_snoc; reflexivity|]. repeat split; reflexivity.
  - simpl. apply lookup_insert_eq.
Qed.

(** A later attempt of a chain: its task id is in the table already, so
    it ends in the handler with the database's complaint. *)
Lemma later_attempt (req : request) (document_id : Z) (db : DB) :
  settled (request_id req) document_id db ->
  exists c db',
    extract_pdf_text_task extract unique_violation req document_id db
      = (c, db', retry_policy req
                   (IntegrityError (unique_violation (request_id req)))) /\
    Forall (agree document_id) c /\
    settled (request_id req) document_id db' /\
    length (processing_tasks db') = length (processing_tasks db) /\
    (is_Some (documents db !! document_id) ->
     is_Some (documents db' !! document_id)).
Proof.
  intros Hs. destruct (settled_query _ _ _ Hs) as (i & t & Hq).
  rewrite (attempt_duplicate _ _ _ _ _ Hq), (on_exception_eq _ _ _ _ _ _ Hq).
  destruct Hs as (l0 & J & Hl & Hn & HJ & HJd & Hst & Hdoc).
  unfold query_task in Hq. rewrite Hl in Hq.
  rewrite (find_task_snoc _ _ _ Hn HJ) in Hq. injection Hq as <- <-.
  cbv zeta. rewrite Hl, alter_snoc.
  set (e := IntegrityError (unique_violation (request_id req))).
  assert (Hset : forall m,
             (forall d, m !! document_id = Some d -> extraction_status d = FAILED) ->
             settled (request_id req) document_id
               {| documents := m; processing_tasks := l0 ++ [mark_failure e J] |}).
  { intros m Hm. exists l0, (mark_failure e J). repeat split; assumption. }
  destruct (documents db !! document_id) as [d|] eqn:Hd.
  - assert (Hm : forall d', <[document_id := mark_failed e d]> (documents db)
                            !! document_id = Some d' ->
                            extraction_status d' = FAILED).
    { intros d'. rewrite lookup_insert_eq. intros [= <-]. reflexivity. }
    eexists _, _. split; [reflexivity|]. split; [|split; [|split]].
    + each_commit.
      * apply (settled_agree (request_id req)). exists l0, J.
        repeat split; assumption.
      * apply (settled_agree (request_id req)). auto.
    + auto.
    + simpl. rewrite !length_app. reflexivity.
    + intros _. simpl. rewrite lookup_insert_eq. eauto.
  - eexists _, _. split; [reflexivity|]. split; [|split; [|split]].
    + each_commit. apply (settled_agree (request_id req)).
      apply Hset. intros d'. rewrite Hd. discriminate.
    + apply Hset. intros d'. rewrite Hd. discriminate.
    + simpl. rewrite !length_app. reflexivity.
    + intros [d' [=]].
Qed.

End Attempt.



(** ** Classifying failures *)

Section Classification.

Import Worker.

Lemma file_missing_is_file_error (file_path : str) :
  is_file_error (PDFService.file_missing_msg file_path) = true.
Proof. reflexivity. Qed.

Lemma doc_missing_not_file_error (document_id : Z) :
  is_file_error (doc_missing_msg document_id) = false.
Proof.
  assert (Hd : forall h, (128 <= h)%N ->
             Forall (fun c => c ≠ h) (str_of_int document_id)).
  { intros h Hh. eapply Forall_impl; [apply str_of_int_ascii|].
    simpl. intros c Hc ->. lia. }
  unfold is_file_error, doc_missing_msg, doc_missing_l, FILE_MISSING, UNREADABLE.
  apply orb_false_intro.
  - cbn [app contains startswith N.eqb Pos.eqb orb].
    rewrite contains_skip by (apply Hd; lia). reflexivity.
  - cbn [app contains startswith N.eqb Pos.eqb orb].
    rewrite contains_skip by (apply Hd; lia). reflexivity.
Qed.

End Classification.

(** ** Any attempt *)

Section AnyAttempt.

Import Document ProcessingTask Worker Consistency.

Variable extract : str -> fallible PDFService.extraction.
Variable unique_violation : str -> str.

Lemma on_exception_handled (req : request) (document_id : Z) (db : DB) (e : exn)
    (i : nat) (t : ProcessingTask.t) :
  query_task (request_id req) db = Some (i, t) ->
  handled req document_id e (on_exception req document_id db e).1.2 /\
  (on_exception req document_id db e).2 = retry_policy req e.
Proof.
  intros Hq. rewrite (on_exception_eq _ _ _ _ _ _ Hq). cbv zeta.
  assert (Hq' : list_find (fun x => task_id x = request_id req)
                  (alter (mark_failure e) i (processing_tasks db))
                = Some (i, mark_failure e t)).
  { apply find_task_alter; [reflexivity|exact Hq]. }
  destruct (documents db !! document_id) as [d|] eqn:Hd; cbn [fst snd].
  - split; [|reflexivity]. split.
    + intros d'. cbn [documents]. rewrite lookup_insert_eq.
      intros [= <-]. split; reflexivity.
    + exists i, (mark_failure e t). split; [exact Hq'|]. split; reflexivity.
  - split; [|reflexivity]. split.
    + intros d'. cbn [documents]. rewrite Hd. discriminate.
    + exists i, (mark_failure e t). split; [exact Hq'|]. split; reflexivity.
Qed.

(** An attempt either returns or ends in the handler. *)
Lemma attempt_ends (req : request) (document_id : Z) (db : DB) :
  let res := extract_pdf_text_task extract unique_violation req document_id db in
  (exists r, res.2 = Return r) \/
  (exists e, res.2 = retry_policy req e /\ handled req document_id e res.1.2).
Proof.
  cbv zeta. destruct (query_task (request_id req) db) as [[i t]|] eqn:Hq.
  - right. rewrite (attempt_duplicate _ _ _ _ _ _ _ Hq).
    destruct (on_exception_handled req document_id db
                (IntegrityError (unique_violation (request_id req))) i t Hq).
    eauto.
  - rewrite (attempt_fresh _ _ _ _ _ Hq). cbv zeta.
    pose proof (fun e => find_task_snoc (request_id req) (processing_tasks db)
                           (mark_failure e (new_task req document_id))
                           Hq eq_refl) as Hfind.
    destruct (documents db !! document_id) as [d|] eqn:Hd.
    + destruct (extract (file_path d)) as [r|e]; [left; cbn; eauto|].
      right. exists e. cbn [fst snd]. split; [reflexivity|]. split.
      * intros d'. cbn [documents]. rewrite lookup_insert_eq.
        intros [= <-]. split; reflexivity.
      * eexists _, _. split; [apply Hfind|]. split; reflexivity.
    + right. eexists. cbn [fst snd]. split; [reflexivity|]. split.
      * intros d'. cbn [documents]. rewrite Hd. discriminate.
      * eexists _, _. split; [apply Hfind|]. split; reflexivity.
Qed.

(** An attempt whose [try] block raises ends in the handler with that
    exception, and the handler keeps the document in the table; an attempt
    whose block raises nothing returns. *)
Lemma attempt_raised (req : request) (document_id : Z) (db : DB) :
  let res := extract_pdf_text_task extract unique_violation req document_id db in
  match raised extract unique_violation req document_id db with
  | Some e =>
      res.2 = retry_policy req e /\ handled req document_id e res.1.2 /\
      (is_Some (documents db !! document_id) ->
       is_Some (documents res.1.2 !! document_id))
  | None => exists r, res.2 = Return r
  end.
Proof.
  cbv zeta. destruct (query_task (request_id req) db) as [[i t]|] eqn:Hq.
  - assert (Hr : raised extract unique_violation req document_id db
                 = Some (IntegrityError (unique_violation (request_id req)))).
    { unfold raised, add_task.
      change (task_id (new_task req document_id)) with (request_id req).
      rewrite Hq. reflexivity. }
    rewrite Hr, (attempt_duplicate _ _ _ _ _ _ _ Hq).
    destruct (on_exception_handled req document_id db
                (IntegrityError (unique_violation (request_id req))) i t Hq)
      as [Hh Hp].
    split; [exact Hp|]. split; [exact Hh|].
    rewrite (on_exception_eq _ _ _ _ _ _ Hq). cbv zeta.
    destruct (documents db !! document_id) as [d|]; cbn [fst snd documents].
    + intros _. rewrite lookup_insert_eq. eauto.
    + intros [d [=]].
  - assert (Hr : raised extract unique_violation req document_id db
                 = match documents db !! document_id with
                   | None => Some (Exception (doc_missing_msg document_id))
                   | Some d => match extract (file_path d) with
                               | Raise e => Some e
                               | Ok _ => None
                               end
                   end).
    { unfold raised, add_task.
      change (task_id (new_task req document_id)) with (request_id req).
      rewrite Hq. reflexivity. }
    rewrite Hr, (attempt_fresh _ _ _ _ _ Hq). cbv zeta.
    pose proof (fun e => find_task_snoc (request_id req) (processing_tasks db)
                           (mark_failure e (new_task req document_id))
                           Hq eq_refl) as Hfind.
    destruct (documents db !! document_id) as [d|] eqn:Hd.
    + destruct (extract (file_path d)) as [r|e]; [cbn; eauto|].
      cbn [fst snd]. split; [reflexivity|]. split; [split|].
      * intros d'. cbn [documents]. rewrite lookup_insert_eq.
        intros [= <-]. split; reflexivity.
      * eexists _, _. split; [apply Hfind|]. split; reflexivity.
      * intros _. cbn [documents]. rewrite lookup_insert_eq. eauto.
    + cbn [fst snd]. split; [reflexivity|]. split; [split|].
      * intros d'. cbn [documents]. rewrite Hd. discriminate.
      * eexists _, _. split; [apply Hfind|]. split; reflexivity.
      * intros [d [=]].
Qed.

(** Completed documents keep the length of their text through an attempt,
    provided the service reports the length of the text it returns. *)
Lemma attempt_lengths (req : request) (document_id : Z) (db : DB) :
  (forall p r, extract p = Ok r ->
               PDFService.text_length r = len (PDFService.text r)) ->
  lengths_recorded db ->
  let res := extract_pdf_text_task extract unique_violation req document_id db in
  Forall lengths_recorded res.1.1 /\ lengths_recorded res.1.2.
Proof.
  intros Hlen Hdb. cbv zeta.
  assert (Hfail : forall e d m, lengths_recorded {| documents := m; processing_tasks := [] |} ->
            forall l, lengths_recorded
              {| documents := <[document_id := mark_failed e d]> m;
                 processing_tasks := l |}).
  { intros e d m Hm l. apply map_Forall_insert_2; [discriminate|exact Hm]. }
  assert (Hproc : forall d l, lengths_recorded
              {| documents := <[document_id := mark_processing d]> (documents db);
                 processing_tasks := l |}).
  { intros d l. apply map_Forall_insert_2; [discriminate|exact Hdb]. }
  destruct (query_task (request_id req) db) as [[i t]|] eqn:Hq.
  - rewrite (attempt_duplicate _ _ _ _ _ _ _ Hq), (on_exception_eq _ _ _ _ _ _ Hq).
    cbv zeta. destruct (documents db !! document_id) as [d|]; cbn [fst snd].
    + split; [|apply Hfail; exact Hdb].
      repeat (first [apply List.Forall_nil | apply List.Forall_cons]);
        apply Hfail; exact Hdb.
    + split; [|exact Hdb].
      repeat (first [apply List.Forall_nil | apply List.Forall_cons]); exact Hdb.
  - rewrite (attempt_fresh _ _ _ _ _ Hq). cbv zeta.
    destruct (documents db !! document_id) as [d|] eqn:Hd.
    + destruct (extract (file_path d)) as [r|e] eqn:He; cbn [fst snd].
      * assert (Hdone : forall l, lengths_recorded
                  {| documents :=
                       <[document_id := mark_completed r (mark_processing d)]>
                         (<[document_id := mark_processing d]> (documents db));
                     processing_tasks := l |}).
        { intros l. apply map_Forall_insert_2; [|apply (Hproc d [])].
          intros _. cbn. apply (Hlen _ _ He). }
        split; [|apply Hdone].
        repeat (first [apply List.Forall_nil | apply List.Forall_cons]);
          first [exact Hdb | apply Hproc | apply Hdone].
      * split; [|apply Hfail; apply (Hproc d [])].
        repeat (first [apply List.Forall_nil | apply List.Forall_cons]);
          first [exact Hdb | apply Hproc | apply Hfail; apply (Hproc d [])].
    + cbn [fst snd]. split; [|exact Hdb].
      repeat (first [apply List.Forall_nil | apply List.Forall_cons]); exact Hdb.
Qed.

End AnyAttempt.

Lemma service_length (w : PDFService.env) (p : str) (r : PDFService.extraction) :
  Worker.service w p = Ok r -> PDFService.text_length r = len (PDFService.text r).
Proof.
  unfold Worker.service, PDFService.extract_text_from_pdf.
  destruct (negb _); [discriminate|].
  destruct (PDFService._extract_with_pymupdf w p) as [c1 [ta pa]].
  destruct (_ <? _).
  - intros [= <-]. reflexivity.
  - destruct (PDFService._extract_with_pdfplumber w p) as [c2 [tb pb]].
    cbn [snd]. destruct (_ <? _); intros [= <-]; reflexivity.
Qed.

(** The service of the repository raises for a missing file only: what the
    two libraries raise stays inside the extractors. *)
Lemma service_raises_missing_file (w : PDFService.env) (p : str) (e : exn) :
  Worker.service w p = Raise e ->
  e = FileNotFoundError (PDFService.file_missing_msg p) /\
  Worker.is_file_error (str_of_exn e) = true.
Proof.
  unfold Worker.service, PDFService.extract_text_from_pdf.
  destruct (negb _).
  - intros [= <-]. split; [reflexivity|apply file_missing_is_file_error].
  - destruct (PDFService._extract_with_pymupdf w p) as [c1 [ta pa]].
    destruct (_ <? _); [discriminate|].
    destruct (PDFService._extract_with_pdfplumber w p) as [c2 [tb pb]].
    cbn [snd]. destruct (_ <? _); discriminate.
Qed.

(** ** Chains of attempts *)

Section Chain.

Import Document ProcessingTask Worker Consistency.

Variable extract : str -> fallible PDFService.extraction.
Variable unique_violation : str -> str.
Variable tid : str.
Variable document_id : Z.

Local Abbreviation attempt_of := (extract_pdf_text_task extract unique_violation).
Local Abbreviation chain := (run extract unique_violation).

Lemma run_unfold (fuel : nat) (req : request) (db : DB) :
  chain (S fuel) req document_id db =
    let res := attempt_of req document_id db in
    let a := {| att_request := req; att_commits := res.1.1;
                att_db := res.1.2; att_outcome := res.2 |} in
    match res.2 with
    | Retry _ _ _ =>
        match chain fuel {| request_id := request_id req; retries := retries req + 1 |}
                document_id res.1.2 with
        | Some rest => Some (a :: rest)
        | None => None
        end
    | _ => Some [a]
    end.
Proof.
  simpl. destruct (attempt_of req document_id db) as [[c db'] o]. reflexivity.
Qed.

(** A chain ends: an attempt asks for a retry only below three retries. *)
Lemma run_total (fuel : nat) :
  forall (r : Z) (db : DB),
    4 - r <= Z.of_nat fuel -> (1 <= fuel)%nat ->
    exists l, chain fuel {| request_id := tid; retries := r |} document_id db = Some l.
Proof.
  induction fuel as [|fuel IH]; intros r db Hr Hf; [lia|].
  rewrite run_unfold. cbv zeta.
  destruct (attempt_ends extract unique_violation
              {| request_id := tid; retries := r |} document_id db)
    as [[ret ->]|[e [-> _]]]; [eauto|].
  destruct (retry_policy _ e) as [ret|e'|e' cd m] eqn:Hp; [eauto..|].
  apply retry_policy_retry in Hp as (_ & Hlt & _). cbn [retries request_id] in *.
  destruct (IH (r + 1) (attempt_of {| request_id := tid; retries := r |}
                          document_id db).1.2) as [l ->]; [lia..|]. eauto.
Qed.





(** The same, counting: when the complaint of the database is not taken
    for a file error, a chain at [3 - k] retries has [k] more retries to go,
    each scheduled [60 * (retries + 1)] seconds ahead, and then gives up. *)
Lemma run_settled_transient (k : nat) :
  forall (r : Z) (db : DB) (fuel : nat),
    settled tid document_id db ->
    is_file_error (unique_violation tid) = false ->
    r = 3 - Z.of_nat k -> (k < fuel)%nat ->
    let E := IntegrityError (unique_violation tid) in
    exists l,
      chain fuel {| request_id := tid; retries := r |} document_id db = Some l /\
      att_outcome <$> l
        = ((fun j => Retry E (60 * (r + 1 + Z.of_nat j)) 3) <$> seq 0 k)
          ++ [Reraise E] /\
      att_request <$> l
        = (fun j => {| request_id := tid; retries := r + Z.of_nat j |})
          <$> seq 0 (S k) /\
      Forall (fun a =>
                settled tid document_id (att_db a) /\
                length (processing_tasks (att_db a)) = length (processing_tasks db) /\
                (is_Some (documents db !! document_id) ->
                 is_Some (documents (att_db a) !! document_id))) l.
Proof.
  induction k as [|k IH]; intros r db fuel Hs Huv Hr Hf E;
    (destruct fuel as [|fuel]; [lia|]); rewrite run_unfold; cbv zeta;
    destruct (later_attempt extract unique_violation
                {| request_id := tid; retries := r |} document_id db Hs)
      as (c & db' & Heq & Hc & Hs' & Hlen & Hdoc);
    rewrite Heq; cbn [fst snd request_id retries] in *;
    unfold retry_policy; cbn [str_of_exn retries]; rewrite Huv.
  - replace (r <? 3) with false by (symmetry; apply Z.ltb_ge; lia).
    eexists. split; [reflexivity|]. split; [reflexivity|]. split.
    + cbn. rewrite Z.add_0_r. reflexivity.
    + apply List.Forall_cons; [|apply List.Forall_nil]. cbn. auto.
  - replace (r <? 3) with true by (symmetry; apply Z.ltb_lt; lia).
    destruct (IH (r + 1) db' fuel Hs' Huv) as (l & -> & Ho & Hq & Hall); [lia..|].
    eexists. split; [reflexivity|]. split; [|split].
    + rewrite fmap_cons, Ho. cbn [att_outcome seq fmap list_fmap app].
      rewrite Z.add_0_r. f_equal. f_equal.
      rewrite <- (fmap_S_seq 0 k), <- list_fmap_compose. apply list_fmap_ext.
      intros _ j _. simpl. f_equal. lia.
    + rewrite fmap_cons, Hq. cbn [att_request].
      change (seq 0 (S (S k))) with (0%nat :: seq 1 (S k)).
      rewrite fmap_cons, Z.add_0_r. f_equal.
      rewrite <- (fmap_S_seq 0 (S k)), <- list_fmap_compose. apply list_fmap_ext.
      intros _ j _. simpl. f_equal. lia.
    + apply List.Forall_cons; [cbn; auto|].
      eapply Forall_impl; [exact Hall|]. cbn. intros a (? & ? & ?).
      split; [assumption|]. split; [congruence|auto].
Qed.

(** A chain whose first attempt failed for a passing reason: three retries
    at 60, 120 and 180 seconds, each stopped by the database, and the fourth
    attempt gives up. *)
Lemma run_after_transient (fuel : nat) (db db1 : DB) (c : list DB) (e : exn) :
  let req := {| request_id := tid; retries := 0 |} in
  let E := IntegrityError (unique_violation tid) in
  attempt_of req document_id db = (c, db1, retry_policy req e) ->
  is_file_error (str_of_exn e) = false ->
  is_file_error (unique_violation tid) = false ->
  settled tid document_id db1 ->
  (4 <= fuel)%nat ->
  exists a2 a3 a4,
    chain fuel req document_id db
      = Some [ {| att_request := req; att_commits := c; att_db := db1;
                  att_outcome := Retry e 60 3 |}; a2; a3; a4 ] /\
    att_outcome a2 = Retry E 120 3 /\ att_outcome a3 = Retry E 180 3 /\
    att_outcome a4 = Reraise E /\
    att_request a2 = {| request_id := tid; retries := 1 |} /\
    att_request a3 = {| request_id := tid; retries := 2 |} /\
    att_request a4 = {| request_id := tid; retries := 3 |} /\
    settled tid document_id (att_db a4) /\
    length (processing_tasks (att_db a4)) = length (processing_tasks db1) /\
    (is_Some (documents db1 !! document_id) ->
     is_Some (documents (att_db a4) !! document_id)).
Proof.
  intros req E Heq He Huv Hs Hf. destruct fuel as [|fuel]; [lia|].
  rewrite run_unfold. cbv zeta. rewrite Heq. cbn [fst snd].
  unfold retry_policy. rewrite He. subst req. cbn [retries request_id].
  change (0 <? 3) with true. change (0 + 1) with 1. change (60 * 1) with 60.
  cbv iota.
  destruct (run_settled_transient 2 1 db1 fuel Hs Huv) as (l & -> & Ho & Hq & Hall);
    [lia..|].
  destruct l as [|a2 [|a3 [|a4 [|? ?]]]]; try discriminate Ho.
  cbn in Ho, Hq. injection Ho as Ho2 Ho3 Ho4. injection Hq as Hq2 Hq3 Hq4.
  apply Forall_cons in Hall as [_ Hall]. apply Forall_cons in Hall as [_ Hall].
  apply Forall_cons in Hall as [(H1 & H2 & H3) _].
  exists a2, a3, a4. repeat split; assumption.
Qed.

End Chain.


(** ** The retry policy *)

(** C1, as stated, fails.  The worker that runs task [t1] for document 1 is
    lost during the extraction, which leaves the document and the task
    processing.  The broker delivers the message again.  The new run is
    refused the insertion of its row: a failure that is not a file error,
    at retry count 0.  The run is sent again after 60 seconds, and by then
    the handler has marked the document failed and the task failure: the
    document is neither processing nor pending. *)
Lemma requeue_marks_records_failed :
  let req := {| Worker.request_id := Sample.t1; Worker.retries := 0 |} in
  let E := IntegrityError (Sample.pg_unique_violation Sample.t1) in
  let res := Sample.task req 1 Sample.db_interrupted in
  Consistency.both_processing 1 Sample.db_interrupted /\
  Worker.raised (Worker.service Sample.w) Sample.pg_unique_violation
    req 1 Sample.db_interrupted = Some E /\
  Worker.is_file_error (str_of_exn E) = false /\
  Worker.retries req < 3 /\
  res.2 = Worker.Retry E 60 3 /\
  exists d t,
    documents res.1.2 !! 1 = Some d /\ latest_task 1 res.1.2 = Some t /\
    Document.extraction_status d = FAILED /\
    Document.extraction_status d ≠ PROCESSING /\
    Document.extraction_status d ≠ PENDING /\
    ProcessingTask.status t = FAILURE.
Proof.
  cbv zeta. split.
  { eexists _, _. split; [vm_compute; reflexivity|].
    split; [vm_compute; reflexivity|]. split; reflexivity. }
  split; [vm_compute; reflexivity|]. split; [vm_compute; reflexivity|].
  split; [reflexivity|]. split; [vm_compute; reflexivity|].
  eexists _, _. split; [vm_compute; reflexivity|].
  split; [vm_compute; reflexivity|].
  repeat split; discriminate.
Qed.

(** An attempt asks for a retry only from its handler, for a failure that is
    not a file error, below three retries. *)
Lemma requeue_only_from_handler
    (extract : str -> fallible PDFService.extraction)
    (unique_violation : str -> str)
    (req : Worker.request) (document_id : Z) (db : DB)
    (e : exn) (countdown max_retries : Z) :
  let res := Worker.extract_pdf_text_task extract unique_violation
               req document_id db in
  res.2 = Worker.Retry e countdown max_retries ->
  Worker.raised extract unique_violation req document_id db = Some e /\
  Worker.retries req < 3 /\
  Worker.is_file_error (str_of_exn e) = false /\
  countdown = 60 * (Worker.retries req + 1) /\ max_retries = 3.
Proof.
  cbv zeta. intros Ho.
  pose proof (attempt_raised extract unique_violation req document_id db) as Ha.
  cbv zeta in Ha.
  destruct (Worker.raised extract unique_violation req document_id db) as [e0|].
  - destruct Ha as (He0 & _). rewrite He0 in Ho.
    apply retry_policy_retry in Ho as (Hf & Hlt & -> & -> & ->). auto.
  - destruct Ha as [r Hr]. rewrite Hr in Ho. discriminate.
Qed.

(** C1, amended.  Whenever an attempt fails, that is its [try] block raises
    an exception, with an exception that is not a file error while the retry
    count is below 3, the attempt ends by sending the task again, scheduled
    60 * (retries + 1) seconds ahead with max_retries 3, and the state it
    leaves has the document (when there is one) marked failed and the row
    under the task id marked failure, both with the text of the
    exception. *)
Theorem requeue_after_marking_failed
    (extract : str -> fallible PDFService.extraction)
    (unique_violation : str -> str)
    (req : Worker.request) (document_id : Z) (db : DB) (e : exn) :
  let res := Worker.extract_pdf_text_task extract unique_violation
               req document_id db in
  Worker.raised extract unique_violation req document_id db = Some e ->
  Worker.is_file_error (str_of_exn e) = false ->
  Worker.retries req < 3 ->
  res.2 = Worker.Retry e (60 * (Worker.retries req + 1)) 3 /\
  Consistency.handled req document_id e res.1.2.
Proof.
  cbv zeta. intros Hr Hf Hlt.
  pose proof (attempt_raised extract unique_violation req document_id db) as Ha.
  cbv zeta in Ha. rewrite Hr in Ha. destruct Ha as (Ho & Hh & _).
  split; [|exact Hh]. rewrite Ho.
  apply retry_policy_retry. auto.
Qed.

Lemma requeue_after_marking_failed_witness :
  let req := {| Worker.request_id := Sample.t1; Worker.retries := 0 |} in
  let E := IntegrityError (Sample.pg_unique_violation Sample.t1) in
  (Sample.task req 1 Sample.db_interrupted).2 = Worker.Retry E (60 * (0 + 1)) 3 /\
  Consistency.handled req 1 E (Sample.task req 1 Sample.db_interrupted).1.2.
Proof.
  intros req E.
  apply (requeue_after_marking_failed (Worker.service Sample.w)
           Sample.pg_unique_violation req 1 Sample.db_interrupted E).
  - vm_compute. reflexivity.
  - vm_compute. reflexivity.
  - reflexivity.
Defined.

(** C3, at a failing input.  Document 3 is not in the table, so the first
    attempt under task id [t1] inserts its row and fails for a passing
    reason.  Each of the three retries comes under the same task id, is
    refused by the unique index before anything else happens, and rewrites
    the one row of the first attempt: the table never holds a second row. *)
Lemma retry_inserts_no_task :
  let req := {| Worker.request_id := Sample.t1; Worker.retries := 0 |} in
  let E := IntegrityError (Sample.pg_unique_violation Sample.t1) in
  exists a1 a2 a3 a4,
    Sample.chain 4 req 3 Sample.db0 = Some [a1; a2; a3; a4] /\
    Worker.att_outcome a2 = Worker.Retry E 120 3 /\
    Worker.att_outcome a3 = Worker.Retry E 180 3 /\
    Worker.att_outcome a4 = Worker.Reraise E /\
    length (processing_tasks (Worker.att_db a1)) = 1%nat /\
    length (processing_tasks (Worker.att_db a2)) = 1%nat /\
    length (processing_tasks (Worker.att_db a4)) = 1%nat /\
    (ProcessingTask.error_message <$> processing_tasks (Worker.att_db a1))
      = [Some (Worker.doc_missing_msg 3)] /\
    (ProcessingTask.error_message <$> processing_tasks (Worker.att_db a2))
      = [Some (Sample.pg_unique_violation Sample.t1)].
Proof.
  cbv zeta. eexists _, _, _, _. split; [vm_compute; reflexivity|].
  repeat split; vm_compute; reflexivity.
Qed.




(** C6.  When the file of a document does not exist, the chain is one
    attempt long: the service raises the missing-file error, the handler
    marks the document failed with that message and the task failure, the
    error is taken for a file error at any retry count and raised again,
    and no retry is scheduled. *)
Theorem missing_file_fails_once
    (w : PDFService.env) (unique_violation : str -> str) (fuel : nat)
    (req : Worker.request) (document_id : Z) (db : DB) (d : Document.t) :
  query_task (Worker.request_id req) db = None ->
  documents db !! document_id = Some d ->
  PDFService.path_exists w (Document.file_path d) = false ->
  (1 <= fuel)%nat ->
  let e := FileNotFoundError (PDFService.file_missing_msg (Document.file_path d)) in
  exists a d',
    Worker.run (Worker.service w) unique_violation fuel req document_id db
      = Some [a] /\
    Worker.att_outcome a = Worker.Reraise e /\
    Worker.countdowns [a] = [] /\
    documents (Worker.att_db a) !! document_id = Some d' /\
    Document.extraction_status d' = FAILED /\
    Document.extraction_error d' = Some (str_of_exn e) /\
    Consistency.both_failed document_id (Worker.att_db a).
Proof.
  intros Hq Hd Hex Hf e. destruct fuel as [|fuel]; [lia|].
  assert (He : Worker.service w (Document.file_path d) = Raise e).
  { unfold Worker.service. rewrite extract_missing by exact Hex. reflexivity. }
  destruct (first_attempt_raises (Worker.service w) unique_violation req
              document_id db d e Hq Hd He) as (c & db1 & Heq & _ & Hs & Hd1 & _).
  assert (Hp : Worker.retry_policy req e = Worker.Reraise e).
  { unfold Worker.retry_policy. subst e. cbn [str_of_exn].
    rewrite file_missing_is_file_error. reflexivity. }
  rewrite run_unfold. cbv zeta. rewrite Heq. cbn [fst snd]. rewrite Hp.
  eexists _, _. split; [reflexivity|]. cbn [Worker.att_outcome Worker.att_db].
  split; [reflexivity|]. split; [reflexivity|].
  split; [exact Hd1|]. split; [reflexivity|]. split; [reflexivity|].
  exact (settled_both_failed _ _ _ Hs).
Qed.

Lemma missing_file_fails_once_witness :
  exists a,
    Sample.chain 1 {| Worker.request_id := Sample.t2; Worker.retries := 0 |}
      2 Sample.db0 = Some [a] /\
    Worker.att_outcome a
      = Worker.Reraise
          (FileNotFoundError (PDFService.file_missing_msg Sample.gone_pdf)).
Proof.
  destruct (missing_file_fails_once Sample.w Sample.pg_unique_violation 1
              {| Worker.request_id := Sample.t2; Worker.retries := 0 |}
              2 Sample.db0
              (Documents.new_document 2 (utf8 "gone.pdf") Sample.gone_pdf))
    as (a & d' & Hrun & Ho & _);
    [reflexivity|reflexivity|reflexivity|lia|].
  exists a. split; [exact Hrun|exact Ho].
Defined.

(** C10.  The message raised for a document id that matches no document
    holds neither of the two file-error patterns, so the failure counts as
    a passing one: a chain that starts under a new task id asks for three
    retries, 60, 120 and 180 seconds ahead, and gives up on the fourth
    attempt instead of on the first. *)
Theorem missing_document_is_retried
    (extract : str -> fallible PDFService.extraction)
    (unique_violation : str -> str)
    (fuel : nat) (tid : str) (document_id : Z) (db : DB) :
  let req := {| Worker.request_id := tid; Worker.retries := 0 |} in
  query_task tid db = None ->
  documents db !! document_id = None ->
  Worker.is_file_error (unique_violation tid) = false ->
  (4 <= fuel)%nat ->
  Worker.is_file_error (Worker.doc_missing_msg document_id) = false /\
  exists a1 a2 a3 a4 e2 e3 e4,
    Worker.run extract unique_violation fuel req document_id db
      = Some [a1; a2; a3; a4] /\
    Worker.countdowns [a1; a2; a3; a4] = [60; 120; 180] /\
    Worker.att_outcome a1
      = Worker.Retry (Exception (Worker.doc_missing_msg document_id)) 60 3 /\
    Worker.att_outcome a2 = Worker.Retry e2 120 3 /\
    Worker.att_outcome a3 = Worker.Retry e3 180 3 /\
    Worker.att_outcome a4 = Worker.Reraise e4.
Proof.
  intros req Hq Hd Huv Hf. split; [apply doc_missing_not_file_error|].
  destruct (first_attempt_no_document extract unique_violation req document_id db
              Hq Hd) as (c & db1 & Heq & _ & Hs & _).
  destruct (run_after_transient extract unique_violation tid document_id fuel
              db db1 c _ Heq (doc_missing_not_file_error document_id) Huv Hs Hf)
    as (a2 & a3 & a4 & Hrun & Ho2 & Ho3 & Ho4 & _).
  eexists _, a2, a3, a4, _, _, _. split; [exact Hrun|].
  split; [unfold Worker.countdowns; cbn; rewrite Ho2, Ho3, Ho4; reflexivity|].
  split; [reflexivity|]. split; [exact Ho2|]. split; [exact Ho3|exact Ho4].
Qed.

Lemma missing_document_is_retried_witness :
  exists l,
    Sample.chain 4 {| Worker.request_id := Sample.t1; Worker.retries := 0 |}
      3 Sample.db0 = Some l /\
    Worker.countdowns l = [60; 120; 180].
Proof.
  destruct (missing_document_is_retried (Worker.service Sample.w)
              Sample.pg_unique_violation 4 Sample.t1 3 Sample.db0)
    as (_ & a1 & a2 & a3 & a4 & e2 & e3 & e4 & Hrun & Hcd & _);
    [reflexivity|reflexivity|reflexivity|lia|].
  exists [a1; a2; a3; a4]. split; [exact Hrun|exact Hcd].
Defined.

(** ** The two records together *)

Section Agreement.

Import Document ProcessingTask Worker Consistency.

Variable extract : str -> fallible PDFService.extraction.
Variable unique_violation : str -> str.
Variable tid : str.
Variable document_id : Z.


End Agreement.




(** ** The stored length *)

(** C8.  If every completed document stores the length of its stored text,
    the same holds in every state an attempt commits and in the state it
    leaves; and an attempt that returns leaves its document completed with
    text_length equal to the length of extracted_text. *)
Theorem completed_text_length
    (w : PDFService.env) (unique_violation : str -> str)
    (req : Worker.request) (document_id : Z) (db : DB) :
  Consistency.lengths_recorded db ->
  let res := Worker.extract_pdf_text_task (Worker.service w) unique_violation
               req document_id db in
  Forall Consistency.lengths_recorded res.1.1 /\
  Consistency.lengths_recorded res.1.2 /\
  (forall r, res.2 = Worker.Return r ->
     exists d txt,
       documents res.1.2 !! document_id = Some d /\
       Document.extraction_status d = COMPLETED /\
       Document.extracted_text d = Some txt /\
       Document.text_length d = len txt /\
       Worker.ret_text_length r = len txt).
Proof.
  intros Hdb res.
  destruct (attempt_lengths (Worker.service w) unique_violation req document_id db
              (service_length w) Hdb) as [Hc Hres].
  split; [exact Hc|]. split; [exact Hres|]. intros r Hr. subst res.
  destruct (query_task (Worker.request_id req) db) as [[i t]|] eqn:Hq.
  - rewrite (attempt_duplicate _ _ _ _ _ _ _ Hq) in Hr.
    destruct (on_exception_handled req document_id db
                (IntegrityError (unique_violation (Worker.request_id req))) i t Hq)
      as [_ Hp].
    rewrite Hp in Hr. exfalso. exact (retry_policy_no_return _ _ _ Hr).
  - destruct (documents db !! document_id) as [d|] eqn:Hd.
    + destruct (Worker.service w (Document.file_path d)) as [x|e] eqn:He.
      * destruct (first_attempt_returns (Worker.service w) unique_violation req
                    document_id db d x Hq Hd He)
          as (s1 & s2 & db' & Heq & _ & _ & _ & Hd').
        rewrite Heq in Hr |- *. cbn [fst snd] in *. injection Hr as <-.
        eexists _, _. split; [exact Hd'|]. split; [reflexivity|].
        split; [reflexivity|]. cbn. split; apply (service_length w _ _ He).
      * destruct (first_attempt_raises (Worker.service w) unique_violation req
                    document_id db d e Hq Hd He) as (c & db1 & Heq & _).
        rewrite Heq in Hr. exfalso. exact (retry_policy_no_return _ _ _ Hr).
    + destruct (first_attempt_no_document (Worker.service w) unique_violation req
                  document_id db Hq Hd) as (c & db1 & Heq & _).
      rewrite Heq in Hr. exfalso. exact (retry_policy_no_return _ _ _ Hr).
Qed.

Lemma lengths_recorded_sample : Consistency.lengths_recorded Sample.db0.
Proof.
  apply map_Forall_insert_2; [discriminate|].
  apply map_Forall_singleton. discriminate.
Qed.

Lemma completed_text_length_witness :
  let res := Sample.task {| Worker.request_id := Sample.t1; Worker.retries := 0 |}
               1 Sample.db0 in
  exists d txt,
    documents res.1.2 !! 1 = Some d /\
    Document.extraction_status d = COMPLETED /\
    Document.extracted_text d = Some txt /\
    Document.text_length d = len txt.
Proof.
  intros res.
  destruct (completed_text_length Sample.w Sample.pg_unique_violation
              {| Worker.request_id := Sample.t1; Worker.retries := 0 |}
              1 Sample.db0 lengths_recorded_sample) as (_ & _ & H).
  destruct (H _ eq_refl) as (d & txt & H1 & H2 & H3 & H4 & _).
  exists d, txt. auto.
Defined.

(** * Further properties of the worker *)

Section Shapes.

Import Document ProcessingTask Worker Frame.

Variable extract : str -> fallible PDFService.extraction.
Variable unique_violation : str -> str.

Local Abbreviation attempt_of := (extract_pdf_text_task extract unique_violation).

(** The tasks table after an attempt: the row under the task id rewritten
    in place, or one row more. *)
Lemma attempt_tasks_shape (req : request) (document_id : Z) (db : DB) :
  forall s, s ∈ (attempt_of req document_id db).1.1
            ++ [(attempt_of req document_id db).1.2] ->
  (exists i t f, query_task (request_id req) db = Some (i, t) /\
      (forall x, task_id (f x) = task_id x /\ task_type (f x) = task_type x /\
                 ProcessingTask.document_id (f x) = ProcessingTask.document_id x) /\
      processing_tasks s = alter f i (processing_tasks db)) \/
  (exists J, query_task (request_id req) db = None /\
      processing_tasks s = processing_tasks db ++ [J] /\
      task_id J = request_id req /\ task_type J = PDF_EXTRACTION /\
      ProcessingTask.document_id J = document_id).
Proof.
  intros s Hs.
  destruct (query_task (request_id req) db) as [[i t]|] eqn:Hq.
  - left. rewrite (attempt_duplicate _ _ _ _ _ _ _ Hq),
      (on_exception_eq _ _ _ _ _ _ Hq) in Hs. cbv zeta in Hs.
    set (e := IntegrityError _) in Hs.
    destruct (documents db !! document_id); cbn [fst snd app] in Hs;
      repeat (apply elem_of_cons in Hs as [->|Hs]);
      try (apply elem_of_nil in Hs; destruct Hs);
      first [ exists i, t, (mark_failure e); split; [reflexivity|];
              split; [intros x; repeat split|reflexivity]
            | exists i, t, (fun x => x); split; [reflexivity|];
              split; [intros x; repeat split|];
              cbn [processing_tasks]; symmetry; apply list_alter_id; reflexivity ].
  - right. rewrite (attempt_fresh _ _ _ _ _ Hq) in Hs. cbv zeta in Hs.
    destruct (documents db !! document_id) as [d|];
      [destruct (extract (file_path d)) as [r|e]|];
      cbn [fst snd app] in Hs;
      repeat (apply elem_of_cons in Hs as [->|Hs]);
      try (apply elem_of_nil in Hs; destruct Hs);
      eexists; (split; [reflexivity|]); cbn [processing_tasks];
      (split; [reflexivity|]); repeat split.
Qed.

(** The documents table after an attempt: untouched, or the extraction
    columns of the document rewritten. *)
Lemma attempt_documents_shape (req : request) (document_id : Z) (db : DB) :
  forall s, s ∈ (attempt_of req document_id db).1.1
            ++ [(attempt_of req document_id db).1.2] ->
  documents s = documents db \/
  exists d d', documents db !! document_id = Some d /\
    documents s = <[document_id := d']> (documents db) /\
    id d' = id d /\ filename d' = filename d /\
    file_path d' = file_path d /\ is_used d' = is_used d.
Proof.
  intros s Hs.
  destruct (query_task (request_id req) db) as [[i t]|] eqn:Hq.
  - rewrite (attempt_duplicate _ _ _ _ _ _ _ Hq),
      (on_exception_eq _ _ _ _ _ _ Hq) in Hs. cbv zeta in Hs.
    destruct (documents db !! document_id) as [d|] eqn:Hd; cbn [fst snd app] in Hs;
      repeat (apply elem_of_cons in Hs as [->|Hs]);
      try (apply elem_of_nil in Hs; destruct Hs);
      first [ left; reflexivity
            | right; eexists d, _; split; [reflexivity|];
              split; [reflexivity|]; repeat split ].
  - rewrite (attempt_fresh _ _ _ _ _ Hq) in Hs. cbv zeta in Hs.
    destruct (documents db !! document_id) as [d|] eqn:Hd;
      [destruct (extract (file_path d)) as [r|e]|];
      cbn [fst snd app] in Hs;
      repeat (apply elem_of_cons in Hs as [->|Hs]);
      try (apply elem_of_nil in Hs; destruct Hs);
      cbn [documents]; rewrite ?insert_insert_eq;
      first [ left; reflexivity
            | right; eexists d, _; split; [reflexivity|];
              split; [reflexivity|]; repeat split ].
Qed.

End Shapes.

Section FrameFacts.

Import Document ProcessingTask Worker Frame.

Lemma fmap_alter_same {A B} (g : A -> B) (f : A -> A) (i : nat) (l : list A) :
  (forall x, g (f x) = g x) -> g <$> alter f i l = g <$> l.
Proof.
  intros Hg. revert i. induction l as [|x l IH]; intros [|i];
    [reflexivity|reflexivity|simpl; rewrite Hg; reflexivity|].
  change (g x :: (g <$> alter f i l) = g x :: (g <$> l)). f_equal. apply IH.
Qed.

Lemma query_task_row (tid : str) (db : DB) (i : nat) (t : ProcessingTask.t) :
  query_task tid db = Some (i, t) ->
  processing_tasks db !! i = Some t /\ task_id t = tid.
Proof. intros (? & ? & _)%list_find_Some. auto. Qed.

Lemma query_task_absent (tid : str) (db : DB) :
  query_task tid db = None -> tid ∉ task_id <$> processing_tasks db.
Proof.
  intros Hq%list_find_None Hin. apply list_elem_of_fmap in Hin as (t & -> & Hin).
  rewrite Forall_forall in Hq. exact (Hq t Hin eq_refl).
Qed.

End FrameFacts.

(** X1.  An attempt touches no document but its own: in every state it
    commits and in the state it leaves, no document has been added or
    removed, every other document is as it was, and the document itself has
    kept its id, its file name, its file path and its usage flag. *)
Theorem attempt_keeps_documents
    (extract : str -> fallible PDFService.extraction)
    (unique_violation : str -> str)
    (req : Worker.request) (document_id : Z) (db : DB) :
  let res := Worker.extract_pdf_text_task extract unique_violation
               req document_id db in
  Forall (Frame.documents_kept document_id db) (res.1.1 ++ [res.1.2]).
Proof.
  cbv zeta. apply Forall_forall. intros s Hs.
  destruct (attempt_documents_shape extract unique_violation req document_id db s Hs)
    as [Heq|(d & d' & Hd & Heq & H1 & H2 & H3 & H4)];
    unfold Frame.documents_kept; rewrite Heq.
  - split; [reflexivity|]. destruct (documents db !! document_id); auto.
  - split; [intros j Hj; apply lookup_insert_ne; congruence|].
    rewrite Hd, lookup_insert_eq. auto.
Qed.

(** X2.  An attempt rewrites no task of another chain: the tasks table
    grows by at most one row, at the end; every row that was there keeps its
    place, its task id, its type and its document; and a row under another
    task id is left exactly as it was. *)
Theorem attempt_keeps_tasks
    (extract : str -> fallible PDFService.extraction)
    (unique_violation : str -> str)
    (req : Worker.request) (document_id : Z) (db : DB) :
  let res := Worker.extract_pdf_text_task extract unique_violation
               req document_id db in
  Forall (Frame.tasks_kept (Worker.request_id req) db) (res.1.1 ++ [res.1.2]).
Proof.
  cbv zeta. apply Forall_forall. intros s Hs.
  destruct (attempt_tasks_shape extract unique_violation req document_id db s Hs)
    as [(i & t & f & Hq & Hf & Heq)|(J & Hq & Heq & _)];
    unfold Frame.tasks_kept; rewrite Heq.
  - rewrite length_alter. split; [lia|]. intros j x Hx.
    destruct (decide (i = j)) as [<-|Hne].
    + exists (f x). rewrite list_lookup_alter_eq, Hx.
      destruct (Hf x) as (? & ? & ?). repeat split; try assumption.
      intros Hne. apply query_task_row in Hq as [Hi Ht]. congruence.
    + exists x. rewrite list_lookup_alter_ne by assumption. auto.
  - rewrite length_app. simpl. split; [lia|]. intros j x Hx.
    exists x. rewrite lookup_app_l by eauto using lookup_lt_Some. auto.
Qed.

(** X3.  If no two rows of the tasks table share a task id, the same holds
    in every state an attempt commits and in the state it leaves. *)
Theorem attempt_keeps_task_ids_unique
    (extract : str -> fallible PDFService.extraction)
    (unique_violation : str -> str)
    (req : Worker.request) (document_id : Z) (db : DB) :
  Frame.unique_task_ids db ->
  let res := Worker.extract_pdf_text_task extract unique_violation
               req document_id db in
  Forall Frame.unique_task_ids (res.1.1 ++ [res.1.2]).
Proof.
  intros Hu. cbv zeta. apply Forall_forall. intros s Hs.
  destruct (attempt_tasks_shape extract unique_violation req document_id db s Hs)
    as [(i & t & f & Hq & Hf & Heq)|(J & Hq & Heq & HJ & _)];
    unfold Frame.unique_task_ids; rewrite Heq.
  - rewrite fmap_alter_same by (intros x; apply Hf). exact Hu.
  - rewrite fmap_app. apply NoDup_app. split; [exact Hu|]. split.
    + intros x Hx Hin. apply list_elem_of_singleton in Hin. subst x.
      cbn in Hx. rewrite HJ in Hx. exact (query_task_absent _ _ Hq Hx).
    + apply NoDup_singleton.
Qed.

Lemma attempt_keeps_task_ids_unique_witness :
  Frame.unique_task_ids
    (Sample.task {| Worker.request_id := Sample.t1; Worker.retries := 0 |}
       1 Sample.db0).1.2.
Proof.
  pose proof (attempt_keeps_task_ids_unique (Worker.service Sample.w)
                Sample.pg_unique_violation
                {| Worker.request_id := Sample.t1; Worker.retries := 0 |}
                1 Sample.db0 (NoDup_nil_2 : Frame.unique_task_ids Sample.db0)) as H.
  cbv zeta in H. apply Forall_app in H as [_ H]. exact (List.Forall_inv H).
Defined.

Section ChainBounds.

Import Document ProcessingTask Worker Consistency.

Variable extract : str -> fallible PDFService.extraction.
Variable unique_violation : str -> str.
Variable tid : str.
Variable document_id : Z.

Local Abbreviation attempt_of := (extract_pdf_text_task extract unique_violation).
Local Abbreviation chain := (run extract unique_violation).

Lemma countdowns_cons (a : attempt) (l : list attempt) :
  countdowns (a :: l)
  = match att_outcome a with
    | Retry _ c _ => c :: countdowns l
    | _ => countdowns l
    end.
Proof. unfold countdowns. cbn. destruct (att_outcome a); reflexivity. Qed.

(** Whatever the tables hold and whatever fails, a chain at [3 - k]
    retries makes at most [k + 1] attempts, and the retries it schedules
    follow the backoff table. *)
Lemma run_bounded (k : nat) :
  forall (r : Z) (db : DB) (fuel : nat),
    r = 3 - Z.of_nat k -> (k < fuel)%nat ->
    exists l,
      chain fuel {| request_id := tid; retries := r |} document_id db = Some l /\
      (1 <= length l <= S k)%nat /\
      countdowns l `prefix_of`
        ((fun j => 60 * (r + 1 + Z.of_nat j)) <$> seq 0 k) /\
      S (length (countdowns l)) = length l.
Proof.
  induction k as [|k IH]; intros r db fuel Hr Hf;
    (destruct fuel as [|fuel]; [lia|]); rewrite run_unfold; cbv zeta;
    destruct (attempt_ends extract unique_violation
                {| request_id := tid; retries := r |} document_id db)
      as [[ret ->]|[e [-> _]]];
    try (eexists; split; [reflexivity|]; rewrite countdowns_cons; cbn;
         split; [lia|]; split; [apply prefix_nil|reflexivity]).
  - destruct (retry_policy _ e) as [ret|e'|e' cd m] eqn:Hp;
      try (eexists; split; [reflexivity|]; rewrite countdowns_cons; cbn;
           split; [lia|]; split; [apply prefix_nil|reflexivity]).
    apply retry_policy_retry in Hp as (_ & Hlt & _). cbn [retries] in Hlt. lia.
  - destruct (retry_policy _ e) as [ret|e'|e' cd m] eqn:Hp;
      try (eexists; split; [reflexivity|]; rewrite countdowns_cons; cbn;
           split; [lia|]; split; [apply prefix_nil|reflexivity]).
    apply retry_policy_retry in Hp as (_ & Hlt & _ & -> & _).
    cbn [retries request_id] in *.
    destruct (IH (r + 1) (attempt_of {| request_id := tid; retries := r |}
                            document_id db).1.2 fuel)
      as (l & -> & Hlen & Hpre & Hcd); [lia..|].
    eexists. split; [reflexivity|]. rewrite countdowns_cons. cbn [att_outcome length].
    split; [lia|]. split; [|lia].
    change (seq 0 (S k)) with (0%nat :: seq 1 k). rewrite fmap_cons.
    replace (r + 1 + Z.of_nat 0) with (r + 1) by lia. apply prefix_cons.
    rewrite <- (fmap_S_seq 0 k), <- list_fmap_compose.
    erewrite list_fmap_ext; [exact Hpre|]. intros _ j _. simpl. f_equal. lia.
Qed.

(** After a failed first attempt, what every further attempt does. *)
Lemma run_settled_outcomes (fuel : nat) :
  forall (r : Z) (db : DB) (l : list attempt),
    settled tid document_id db ->
    chain fuel {| request_id := tid; retries := r |} document_id db = Some l ->
    Forall (fun a =>
              let E := IntegrityError (unique_violation tid) in
              att_outcome a = retry_policy (att_request a) E /\
              request_id (att_request a) = tid /\
              handled (att_request a) document_id E (att_db a) /\
              length (processing_tasks (att_db a)) = length (processing_tasks db)) l.
Proof.
  induction fuel as [|fuel IH]; intros r db l Hs Hrun; [discriminate|].
  rewrite run_unfold in Hrun. cbv zeta in Hrun.
  set (req := {| request_id := tid; retries := r |}) in *.
  destruct (later_attempt extract unique_violation req document_id db Hs)
    as (c & db' & Heq & _ & Hs' & Hlen & _).
  destruct (settled_query _ _ _ Hs) as (i & t & Hq).
  destruct (on_exception_handled req document_id db
              (IntegrityError (unique_violation (request_id req))) i t Hq)
    as [Hh _].
  rewrite <- (attempt_duplicate extract unique_violation req document_id db i t Hq)
    in Hh.
  rewrite Heq in Hrun, Hh. cbn [fst snd request_id retries req] in Hrun, Hh.
  assert (Hfirst : forall o, o = retry_policy req (IntegrityError (unique_violation tid)) ->
            let a := {| att_request := req; att_commits := c; att_db := db';
                        att_outcome := o |} in
            att_outcome a = retry_policy (att_request a)
                              (IntegrityError (unique_violation tid)) /\
            request_id (att_request a) = tid /\
            handled (att_request a) document_id
              (IntegrityError (unique_violation tid)) (att_db a) /\
            length (processing_tasks (att_db a)) = length (processing_tasks db)).
  { intros o ->. cbn. auto. }
  destruct (retry_policy _ _) as [ret|e'|e' cd m] eqn:Hp.
  - exfalso. exact (retry_policy_no_return _ _ _ Hp).
  - injection Hrun as <-. apply List.Forall_cons; [|apply List.Forall_nil].
    apply Hfirst. reflexivity.
  - destruct (chain fuel _ document_id db') as [rest|] eqn:Hrest; [|discriminate].
    injection Hrun as <-. apply List.Forall_cons; [apply Hfirst; reflexivity|].
    eapply Forall_impl; [exact (IH _ _ _ Hs' Hrest)|].
    cbv zeta. intros a (H1 & H2 & H3 & H4).
    split; [exact H1|]. split; [exact H2|]. split; [exact H3|].
    rewrite H4. exact Hlen.
Qed.

End ChainBounds.

Section FreshChain.

Import Document ProcessingTask Worker Consistency.

Variable extract : str -> fallible PDFService.extraction.
Variable unique_violation : str -> str.

Local Abbreviation attempt_of := (extract_pdf_text_task extract unique_violation).

Lemma fresh_attempt_row (req : request) (document_id : Z) (db : DB) :
  query_task (request_id req) db = None ->
  length (processing_tasks (attempt_of req document_id db).1.2)
  = S (length (processing_tasks db)).
Proof.
  intros Hq.
  destruct (attempt_tasks_shape extract unique_violation req document_id db
              (attempt_of req document_id db).1.2)
    as [(i & t & f & Hq' & _)|(J & _ & -> & _)].
  - apply elem_of_app. right. apply list_elem_of_singleton. reflexivity.
  - congruence.
  - rewrite length_app. simpl. lia.
Qed.

Lemma fresh_attempt_settled (req : request) (document_id : Z) (db : DB)
    (e : exn) (cd m : Z) :
  query_task (request_id req) db = None ->
  (attempt_of req document_id db).2 = Retry e cd m ->
  settled (request_id req) document_id (attempt_of req document_id db).1.2.
Proof.
  intros Hq Ho. destruct (documents db !! document_id) as [d|] eqn:Hd.
  - destruct (extract (file_path d)) as [r|e0] eqn:He.
    + destruct (first_attempt_returns extract unique_violation req document_id db
                  d r Hq Hd He) as (s1 & s2 & db' & Heq & _).
      rewrite Heq in Ho. discriminate.
    + destruct (first_attempt_raises extract unique_violation req document_id db
                  d e0 Hq Hd He) as (c & db1 & Heq & _ & Hs & _).
      rewrite Heq. exact Hs.
  - destruct (first_attempt_no_document extract unique_violation req document_id db
                Hq Hd) as (c & db1 & Heq & _ & Hs & _).
    rewrite Heq. exact Hs.
Qed.

End FreshChain.

(** ** Chains, whatever fails *)

(** X4.  No chain loops: started at retry count 0, on any tables and with
    any failures, a chain makes between one and four attempts, and the
    countdowns of the retries it schedules are an initial stretch of
    60, 120, 180, one for each attempt but the last. *)
Theorem chain_is_bounded
    (extract : str -> fallible PDFService.extraction)
    (unique_violation : str -> str)
    (fuel : nat) (tid : str) (document_id : Z) (db : DB) :
  (4 <= fuel)%nat ->
  exists l,
    Worker.run extract unique_violation fuel
      {| Worker.request_id := tid; Worker.retries := 0 |} document_id db = Some l /\
    (1 <= length l <= 4)%nat /\
    Worker.countdowns l `prefix_of` [60; 120; 180] /\
    S (length (Worker.countdowns l)) = length l.
Proof.
  intros Hf.
  destruct (run_bounded extract unique_violation tid document_id 3 0 db fuel)
    as (l & Hl & Hlen & Hpre & Hcd); [reflexivity|lia|].
  exists l. auto.
Qed.

Lemma chain_is_bounded_witness :
  exists l,
    Sample.chain 7 {| Worker.request_id := Sample.t1; Worker.retries := 0 |}
      2 Sample.db0 = Some l /\
    (1 <= length l <= 4)%nat.
Proof.
  destruct (chain_is_bounded (Worker.service Sample.w) Sample.pg_unique_violation
              7 Sample.t1 2 Sample.db0) as (l & Hl & Hlen & _); [lia|].
  exists l. auto.
Defined.

(** X5.  Only the first attempt of a chain gets past the insertion of its
    task row.  In a chain started under a new task id, every later attempt
    is refused by the unique index: it ends in the retry policy applied to
    the database's error, it leaves the document (if any) failed with the
    database's message as its extraction error and the one row of the chain
    marked failure with that message, and the tasks table holds exactly one
    row more than before the chain, however many attempts were made. *)
Theorem retries_stop_at_insert
    (extract : str -> fallible PDFService.extraction)
    (unique_violation : str -> str)
    (fuel : nat) (tid : str) (document_id : Z) (db : DB) :
  query_task tid db = None ->
  (4 <= fuel)%nat ->
  let E := IntegrityError (unique_violation tid) in
  exists a1 rest,
    Worker.run extract unique_violation fuel
      {| Worker.request_id := tid; Worker.retries := 0 |} document_id db
      = Some (a1 :: rest) /\
    length (processing_tasks (Worker.att_db a1)) = S (length (processing_tasks db)) /\
    Forall (fun a =>
              Worker.att_outcome a = Worker.retry_policy (Worker.att_request a) E /\
              Consistency.handled (Worker.att_request a) document_id E
                (Worker.att_db a) /\
              length (processing_tasks (Worker.att_db a))
              = S (length (processing_tasks db))) rest.
Proof.
  intros Hq Hf E.
  destruct (run_total extract unique_violation tid document_id fuel 0 db)
    as [l Hl]; [lia..|].
  destruct fuel as [|fuel]; [lia|]. rewrite Hl.
  rewrite run_unfold in Hl. cbv zeta in Hl.
  set (req := {| Worker.request_id := tid; Worker.retries := 0 |}) in *.
  pose proof (fresh_attempt_row extract unique_violation req document_id db Hq) as Hrow.
  pose proof (fresh_attempt_settled extract unique_violation req document_id db) as Hset.
  destruct (Worker.extract_pdf_text_task extract unique_violation req document_id db)
    as [[c db1] o]. cbn [fst snd] in *.
  destruct o as [ret|e|e cd m].
  - injection Hl as <-. eexists _, []. split; [reflexivity|].
    split; [exact Hrow|apply List.Forall_nil].
  - injection Hl as <-. eexists _, []. split; [reflexivity|].
    split; [exact Hrow|apply List.Forall_nil].
  - cbn [Worker.request_id Worker.retries req] in Hl.
    destruct (Worker.run extract unique_violation fuel _ document_id db1)
      as [rest|] eqn:Hrest; [|discriminate].
    injection Hl as <-. eexists _, rest. split; [reflexivity|].
    split; [exact Hrow|].
    eapply Forall_impl;
      [exact (run_settled_outcomes extract unique_violation tid document_id fuel
                _ db1 rest (Hset e cd m Hq eq_refl) Hrest)|].
    cbv zeta. intros a (H1 & H2 & H3 & H4).
    split; [exact H1|]. split; [exact H3|]. rewrite H4. exact Hrow.
Qed.

Lemma retries_stop_at_insert_witness :
  exists a1 rest,
    Sample.chain 4 {| Worker.request_id := Sample.t1; Worker.retries := 0 |}
      3 Sample.db0 = Some (a1 :: rest) /\
    Forall (fun a => length (processing_tasks (Worker.att_db a)) = 1%nat) rest.
Proof.
  destruct (retries_stop_at_insert (Worker.service Sample.w)
              Sample.pg_unique_violation 4 Sample.t1 3 Sample.db0)
    as (a1 & rest & Hrun & _ & Hall); [reflexivity|lia|].
  exists a1, rest. split; [exact Hrun|].
  eapply Forall_impl; [exact Hall|]. cbv zeta. intros a (_ & _ & H). exact H.
Defined.

(** * Further properties of the service *)

Section StripFacts.

Lemma lstrip_suffix (s : str) : exists a, s = a ++ lstrip s.
Proof.
  induction s as [|c s [a IH]]; [exists []; reflexivity|].
  simpl. destruct (isspace c).
  - exists (c :: a). simpl. f_equal. exact IH.
  - exists []. reflexivity.
Qed.

Lemma lstrip_keeps (a b : str) (c : N) :
  isspace c = false -> exists a', lstrip (a ++ c :: b) = a' ++ c :: b.
Proof.
  intros Hc. induction a as [|x a [a' IH]]; simpl.
  - rewrite Hc. exists []. reflexivity.
  - destruct (isspace x); [eauto|]. exists (x :: a). reflexivity.
Qed.

Lemma len_lstrip (s : str) : len (lstrip s) <= len s.
Proof.
  destruct (lstrip_suffix s) as [a Ha]. rewrite Ha at 2. rewrite len_app.
  pose proof (len_nonneg a). lia.
Qed.

Lemma len_reverse (s : str) : len (reverse s) = len s.
Proof. unfold len. rewrite length_reverse. reflexivity. Qed.

Lemma len_strip (s : str) : len (strip s) <= len s.
Proof.
  unfold strip, rstrip. rewrite len_reverse.
  pose proof (len_lstrip (reverse (lstrip s))). rewrite len_reverse in H.
  pose proof (len_lstrip s). lia.
Qed.

(** Stripping cannot eat into a stretch that starts and ends with a
    character that is not white space. *)
Lemma strip_core (pre mid post : str) (b c : N) :
  isspace b = false -> isspace c = false ->
  len mid + 2 <= len (strip (pre ++ b :: mid ++ c :: post)).
Proof.
  intros Hb Hc. unfold strip, rstrip. rewrite len_reverse.
  destruct (lstrip_keeps pre (mid ++ c :: post) b Hb) as [a' ->].
  replace (a' ++ b :: mid ++ c :: post) with ((a' ++ b :: mid) ++ c :: post)
    by (rewrite <- app_assoc; reflexivity).
  rewrite reverse_app, reverse_cons, <- app_assoc. cbn [app].
  destruct (lstrip_keeps (reverse post) (reverse (a' ++ b :: mid)) c Hc) as [p' ->].
  unfold len. rewrite !length_app. cbn [length].
  rewrite length_reverse, length_app. cbn [length]. lia.
Qed.

Lemma str_of_int_nonempty (z : Z) : 1 <= len (str_of_int z).
Proof.
  assert (Hd : forall d, d ≠ Decimal.Nil -> 1 <= len (digits d)).
  { intros [] Hd; try congruence; unfold len; cbn [digits length]; lia. }
  unfold str_of_int. destruct z as [|p|p]; cbn [Z.to_int].
  - reflexivity.
  - apply Hd, DecimalPos.Unsigned.to_uint_nonnil.
  - unfold len. cbn [length]. lia.
Qed.

Lemma len_page_header (n : Z) : 15 <= len (PDFService.page_header n).
Proof.
  unfold PDFService.page_header. rewrite !len_app.
  pose proof (str_of_int_nonempty n).
  change (len PDFService.page_header_l) with 7.
  change (len PDFService.page_header_r) with 7. lia.
Qed.

End StripFacts.

Section PageLoops.

Import PDFService Pages.

Lemma pymupdf_pages_ok (texts : list str) :
  forall n acc, pymupdf_pages n (Ok <$> texts) acc = Ok (acc ++ joined n texts).
Proof.
  induction texts as [|t ts IH]; intros n acc; simpl.
  - rewrite app_nil_r. reflexivity.
  - change (pymupdf_pages (n + 1) (Ok <$> ts) (acc ++ page_header (n + 1) ++ t)
            = Ok (acc ++ page_header (n + 1) ++ t ++ joined (n + 1) ts)).
    rewrite IH, <- !app_assoc. reflexivity.
Qed.

Lemma pdfplumber_pages_ok (texts : list (option str)) :
  forall n acc,
    pdfplumber_pages n (Ok <$> texts) acc
    = Ok (acc ++ joined n (default [] <$> texts)).
Proof.
  induction texts as [|t ts IH]; intros n acc; simpl.
  - rewrite app_nil_r. reflexivity.
  - change (pdfplumber_pages (n + 1) (Ok <$> ts)
              (acc ++ page_header (n + 1) ++ default [] t)
            = Ok (acc ++ page_header (n + 1) ++ default [] t
                      ++ joined (n + 1) (default [] <$> ts))).
    rewrite IH, <- !app_assoc. reflexivity.
Qed.

Lemma pymupdf_reads (w : env) (p : str) (texts : list str) :
  fitz_open w p = Ok (Ok <$> texts) ->
  (_extract_with_pymupdf w p).2 = (joined 0 texts, Z.of_nat (length texts)).
Proof.
  intros H. unfold _extract_with_pymupdf. cbn [snd]. rewrite H, pymupdf_pages_ok.
  rewrite length_fmap. reflexivity.
Qed.

Lemma pdfplumber_reads (w : env) (p : str) (texts : list (option str)) :
  pdfplumber_open w p = Ok (Ok <$> texts) ->
  (_extract_with_pdfplumber w p).2
  = (joined 0 (default [] <$> texts), Z.of_nat (length texts)).
Proof.
  intros H. unfold _extract_with_pdfplumber. cbn [snd].
  rewrite H, pdfplumber_pages_ok, length_fmap. reflexivity.
Qed.

Lemma joined_snoc (ts : list str) (t : str) :
  forall n, joined n (ts ++ [t])
            = joined n ts ++ page_header (n + Z.of_nat (length ts) + 1) ++ t.
Proof.
  induction ts as [|x ts IH]; intros n.
  - simpl. rewrite app_nil_r, Z.add_0_r. reflexivity.
  - cbn [app joined length]. rewrite IH, <- !app_assoc.
    replace (n + 1 + Z.of_nat (length ts) + 1)
      with (n + Z.of_nat (S (length ts)) + 1) by lia.
    reflexivity.
Qed.

Lemma len_joined (texts : list str) :
  forall n, 15 * Z.of_nat (length texts) <= len (joined n texts).
Proof.
  induction texts as [|t ts IH]; intros n; [reflexivity|].
  cbn [joined length]. rewrite !len_app.
  pose proof (len_page_header (n + 1)). pose proof (len_nonneg t).
  specialize (IH (n + 1)). lia.
Qed.

(** The joined text of at least one page opens with a line feed and a
    dash. *)
Lemma joined_opens (texts : list str) (n : Z) :
  texts ≠ [] -> exists rest, joined n texts = 10%N :: 45%N :: rest.
Proof.
  destruct texts as [|t ts]; [congruence|]. intros _.
  cbn [joined]. unfold page_header, page_header_l. cbn [app]. eauto.
Qed.

(** Stripping the joined text of [k] pages leaves at least [15 k - 2]
    characters: the headers are not white space. *)
Lemma len_strip_joined (texts : list str) :
  15 * Z.of_nat (length texts) - 2 <= len (strip (joined 0 texts)).
Proof.
  destruct (decide (texts = [])) as [->|Hne].
  { pose proof (len_nonneg (strip (joined 0 []))). simpl length. lia. }
  destruct (exists_last Hne) as (ts & t & ->).
  rewrite joined_snoc, length_app. cbn [length].
  set (m := 0 + Z.of_nat (length ts) + 1).
  assert (Hx : exists X', joined 0 ts ++ page_header_l ++ str_of_int m
                          ++ [32%N; 39029%N; 32%N; 45%N; 45%N]
                          = 10%N :: 45%N :: X').
  { destruct ts as [|x ts'].
    - cbn [joined app]. unfold page_header_l. cbn [app]. eauto.
    - destruct (joined_opens (x :: ts') 0) as [rest ->]; [congruence|].
      cbn [app]. eauto. }
  destruct Hx as [X' HX].
  replace (joined 0 ts ++ page_header m ++ t)
    with ([] ++ 10%N :: 45%N :: X' ++ 45%N :: 10%N :: t).
  2: { cbn [app]. change (10%N :: 45%N :: X' ++ 45%N :: 10%N :: t)
         with ((10%N :: 45%N :: X') ++ 45%N :: 10%N :: t).
       rewrite <- HX. unfold page_header, page_header_r.
       rewrite <- !app_assoc. reflexivity. }
  pose proof (strip_core [10%N] X' (10%N :: t) 45 45 eq_refl eq_refl) as Hc.
  cbn [app] in Hc |- *.
  assert (Hlen : 15 * Z.of_nat (length ts) + 13 <= len (10%N :: 45%N :: X')).
  { rewrite <- HX, !len_app. pose proof (len_joined ts 0).
    pose proof (str_of_int_nonempty m).
    change (len page_header_l) with 7.
    change (len [32%N; 39029%N; 32%N; 45%N; 45%N]) with 5. lia. }
  unfold len in Hlen, Hc |- *. cbn [length] in Hlen, Hc |- *. lia.
Qed.

End PageLoops.

(** X6.  When both libraries read every page of an existing file and report
    the same page texts (a page for which pdfplumber reports nothing counting
    as empty), the selector answers with the PyMuPDF result: the page texts
    joined under their headers, numbered from 1, the number of pages as page
    count, and method "pymupdf". *)
Theorem same_pages_give_pymupdf
    (w : PDFService.env) (file_path : str)
    (texts : list str) (otexts : list (option str)) :
  PDFService.path_exists w file_path = true ->
  PDFService.fitz_open w file_path = Ok (Ok <$> texts) ->
  PDFService.pdfplumber_open w file_path = Ok (Ok <$> otexts) ->
  default [] <$> otexts = texts ->
  (PDFService.extract_text_from_pdf w file_path).2
  = Ok {| PDFService.text := Pages.joined 0 texts;
          PDFService.text_length := len (Pages.joined 0 texts);
          PDFService.page_count := Z.of_nat (length texts);
          PDFService.method := PDFService.PYMUPDF |}.
Proof.
  intros He Hf Hp Hsame.
  pose proof (pymupdf_reads w file_path texts Hf) as Ha.
  pose proof (pdfplumber_reads w file_path otexts Hp) as Hb.
  rewrite Hsame in Hb.
  destruct (Z.lt_ge_cases 100
              (len (strip (PDFService._extract_with_pymupdf w file_path).2.1)))
    as [Hq|Hq].
  - rewrite (extract_primary w file_path He Hq), Ha. reflexivity.
  - rewrite (extract_fallback w file_path He Hq), Ha, Hb. cbn [fst snd].
    rewrite Z.ltb_irrefl. reflexivity.
Qed.

Lemma same_pages_give_pymupdf_witness :
  PDFService.method
    <$> (match (PDFService.extract_text_from_pdf
                  {| PDFService.path_exists := fun _ => true;
                     PDFService.fitz_open := fun _ => Ok [Ok []];
                     PDFService.pdfplumber_open := fun _ => Ok [Ok None] |}
                  Sample.a_pdf).2 with Ok r => Some r | Raise _ => None end)
  = Some PDFService.PYMUPDF.
Proof.
  rewrite (same_pages_give_pymupdf _ Sample.a_pdf [[]] [None]); reflexivity.
Defined.

(** X7.  The page headers are part of the text: for an existing file that
    PyMuPDF reads, the selector returns at least 15 characters per page, so
    a document with a page never comes out with text_length 0, blank pages
    or not. *)
Theorem readable_pages_give_text
    (w : PDFService.env) (file_path : str) (texts : list str) :
  PDFService.path_exists w file_path = true ->
  PDFService.fitz_open w file_path = Ok (Ok <$> texts) ->
  exists r,
    (PDFService.extract_text_from_pdf w file_path).2 = Ok r /\
    15 * Z.of_nat (length texts) <= PDFService.text_length r.
Proof.
  intros He Hf.
  pose proof (pymupdf_reads w file_path texts Hf) as Ha.
  pose proof (len_joined texts 0) as Hlen.
  destruct (Z.lt_ge_cases 100
              (len (strip (PDFService._extract_with_pymupdf w file_path).2.1)))
    as [Hq|Hq].
  - rewrite (extract_primary w file_path He Hq), Ha. eexists. split; [reflexivity|].
    exact Hlen.
  - rewrite (extract_fallback w file_path He Hq), Ha. cbn [fst snd].
    destruct (Z.ltb_spec (len (Pages.joined 0 texts))
                (len (PDFService._extract_with_pdfplumber w file_path).2.1));
      eexists; (split; [reflexivity|]); cbn [PDFService.text_length]; lia.
Qed.

Lemma readable_pages_give_text_witness :
  exists r,
    (PDFService.extract_text_from_pdf Sample.w Sample.a_pdf).2 = Ok r /\
    15 <= PDFService.text_length r.
Proof.
  destruct (readable_pages_give_text Sample.w Sample.a_pdf [utf8 "hello"])
    as (r & Hr & Hlen); [reflexivity|reflexivity|].
  exists r. split; [exact Hr|exact Hlen].
Defined.

(** X8.  The headers also count towards the quality threshold: for an
    existing file of which PyMuPDF reads seven pages or more, the selector
    answers with the PyMuPDF text and never calls pdfplumber, whatever the
    pages hold, even when every page is blank. *)
Theorem seven_pages_skip_pdfplumber
    (w : PDFService.env) (file_path : str) (texts : list str) :
  PDFService.path_exists w file_path = true ->
  PDFService.fitz_open w file_path = Ok (Ok <$> texts) ->
  (7 <= length texts)%nat ->
  PDFService.extract_text_from_pdf w file_path
  = ([PDFService.OsPathExists file_path; PDFService.FitzOpen file_path],
     Ok {| PDFService.text := Pages.joined 0 texts;
           PDFService.text_length := len (Pages.joined 0 texts);
           PDFService.page_count := Z.of_nat (length texts);
           PDFService.method := PDFService.PYMUPDF |}).
Proof.
  intros He Hf Hn.
  pose proof (pymupdf_reads w file_path texts Hf) as Ha.
  pose proof (len_strip_joined texts) as Hlen.
  rewrite (extract_primary w file_path He); rewrite Ha; [reflexivity|].
  cbn [fst]. lia.
Qed.

Lemma seven_pages_skip_pdfplumber_witness :
  PDFService.method
    <$> (match (PDFService.extract_text_from_pdf
                  {| PDFService.path_exists := fun _ => true;
                     PDFService.fitz_open := fun _ => Ok (Ok <$> replicate 7 []);
                     PDFService.pdfplumber_open :=
                       fun _ => Ok [Ok (Some (utf8 "text only the second library finds, longer than anything the first one saw on its seven blank pages ................"))] |}
                  Sample.a_pdf).2 with Ok r => Some r | Raise _ => None end)
  = Some PDFService.PYMUPDF.
Proof.
  rewrite (seven_pages_skip_pdfplumber _ Sample.a_pdf (replicate 7 []));
    [reflexivity|reflexivity|reflexivity|simpl; lia].
Defined.

(** X9.  On an existing file the selector never returns less text than
    PyMuPDF produced, the length it reports is the length of the text it
    returns, and an answer given without calling pdfplumber is longer than
    100 characters. *)
Theorem selector_keeps_primary_length (w : PDFService.env) (file_path : str) :
  PDFService.path_exists w file_path = true ->
  exists r,
    (PDFService.extract_text_from_pdf w file_path).2 = Ok r /\
    PDFService.text_length r = len (PDFService.text r) /\
    len (PDFService._extract_with_pymupdf w file_path).2.1
      <= PDFService.text_length r /\
    (PDFService.PdfplumberOpen file_path
       ∉ (PDFService.extract_text_from_pdf w file_path).1 ->
     100 < PDFService.text_length r).
Proof.
  intros He.
  destruct (Z.lt_ge_cases 100
              (len (strip (PDFService._extract_with_pymupdf w file_path).2.1)))
    as [Hq|Hq].
  - rewrite (extract_primary w file_path He Hq). eexists. split; [reflexivity|].
    cbn [PDFService.text_length PDFService.text fst snd].
    split; [reflexivity|]. split; [lia|]. intros _.
    pose proof (len_strip (PDFService._extract_with_pymupdf w file_path).2.1).
    lia.
  - rewrite (extract_fallback w file_path He Hq). cbn [fst snd].
    destruct (Z.ltb_spec (len (PDFService._extract_with_pymupdf w file_path).2.1)
                (len (PDFService._extract_with_pdfplumber w file_path).2.1));
      eexists; (split; [reflexivity|]);
      cbn [PDFService.text_length PDFService.text fst snd];
      (split; [reflexivity|]); (split; [lia|]);
      intros Hnot; exfalso; apply Hnot; set_solver.
Qed.

Lemma selector_keeps_primary_length_witness :
  exists r,
    (PDFService.extract_text_from_pdf Sample.w Sample.a_pdf).2 = Ok r /\
    PDFService.text_length r = len (PDFService.text r).
Proof.
  destruct (selector_keeps_primary_length Sample.w Sample.a_pdf)
    as (r & Hr & Hlen & _); [reflexivity|].
  exists r. split; [exact Hr|exact Hlen].
Defined.

(** * The endpoints after the worker *)

Section AfterAttempt.

Import Document ProcessingTask Worker Consistency.

Lemma read_failed (document_id : Z) (db : DB) (d : Document.t) (m : str) :
  documents db !! document_id = Some d ->
  extraction_status d = FAILED -> extraction_error d = Some m ->
  Documents.get_document_text document_id db
  = Documents.HTTPException 500 (Documents.EXTRACTION_FAILED ++ m).
Proof.
  intros Hd Hs He. unfold Documents.get_document_text. rewrite Hd, Hs, He.
  reflexivity.
Qed.

Lemma read_completed (document_id : Z) (db : DB) (d : Document.t) :
  documents db !! document_id = Some d ->
  extraction_status d = COMPLETED ->
  Documents.get_document_text document_id db
  = Documents.Body document_id (extracted_text d) (text_length d) (page_count d).
Proof.
  intros Hd Hs. unfold Documents.get_document_text. rewrite Hd, Hs. reflexivity.
Qed.

Lemma attempt_keeps_document_present
    (extract : str -> fallible PDFService.extraction)
    (unique_violation : str -> str)
    (req : request) (document_id : Z) (db : DB) (d : Document.t) :
  documents db !! document_id = Some d ->
  is_Some (documents (extract_pdf_text_task extract unique_violation
                        req document_id db).1.2 !! document_id).
Proof.
  intros Hd.
  destruct (attempt_documents_shape extract unique_violation req document_id db
              (extract_pdf_text_task extract unique_violation req document_id db).1.2)
    as [->|(d0 & d' & _ & -> & _)].
  - apply elem_of_app. right. apply list_elem_of_singleton. reflexivity.
  - eauto.
  - rewrite lookup_insert_eq. eauto.
Qed.

End AfterAttempt.

(** X10.  A failure shows to the reader at once, retry pending or not: when
    an attempt on a stored document does not return, reading the document's
    text right after it answers 500 with the text of the exception the
    attempt ended on. *)
Theorem failure_is_readable
    (extract : str -> fallible PDFService.extraction)
    (unique_violation : str -> str)
    (req : Worker.request) (document_id : Z) (db : DB) (d : Document.t) :
  let res := Worker.extract_pdf_text_task extract unique_violation
               req document_id db in
  documents db !! document_id = Some d ->
  (forall r, res.2 ≠ Worker.Return r) ->
  exists e,
    res.2 = Worker.retry_policy req e /\
    Documents.get_document_text document_id res.1.2
    = Documents.HTTPException 500 (Documents.EXTRACTION_FAILED ++ str_of_exn e).
Proof.
  intros res Hd Hnr.
  destruct (attempt_ends extract unique_violation req document_id db)
    as [[r Hr]|[e [He [Hdoc _]]]]; [destruct (Hnr r Hr)|].
  exists e. split; [exact He|].
  destruct (attempt_keeps_document_present extract unique_violation req
              document_id db d Hd) as [d' Hd'].
  destruct (Hdoc d' Hd') as [Hs Herr].
  exact (read_failed document_id _ d' _ Hd' Hs Herr).
Qed.

Lemma failure_is_readable_witness :
  exists e,
    Documents.get_document_text 1
      (Worker.extract_pdf_text_task Sample.flaky Sample.pg_unique_violation
         {| Worker.request_id := Sample.t1; Worker.retries := 0 |} 1 Sample.db0).1.2
    = Documents.HTTPException 500 (Documents.EXTRACTION_FAILED ++ str_of_exn e).
Proof.
  destruct (failure_is_readable Sample.flaky Sample.pg_unique_violation
              {| Worker.request_id := Sample.t1; Worker.retries := 0 |}
              1 Sample.db0 (Documents.new_document 1 (utf8 "a.pdf") Sample.a_pdf))
    as (e & He & Hr); [reflexivity|discriminate|].
  exists e. exact Hr.
Defined.

(** X11.  When an attempt returns, the service returned a result for the
    file of the document, and reading the document's text right after the
    attempt answers the text of that result with its text_length and
    page_count; these are the figures the task returned, and the
    text_length is the length of the text. *)
Theorem success_is_readable
    (w : PDFService.env) (unique_violation : str -> str)
    (req : Worker.request) (document_id : Z) (db : DB) (r : Worker.task_return) :
  let res := Worker.extract_pdf_text_task (Worker.service w) unique_violation
               req document_id db in
  res.2 = Worker.Return r ->
  exists d x,
    documents db !! document_id = Some d /\
    Worker.service w (Document.file_path d) = Ok x /\
    Documents.get_document_text document_id res.1.2
    = Documents.Body document_id (Some (PDFService.text x))
        (PDFService.text_length x) (PDFService.page_count x) /\
    Worker.ret_text_length r = PDFService.text_length x /\
    Worker.ret_page_count r = PDFService.page_count x /\
    PDFService.text_length x = len (PDFService.text x).
Proof.
  intros res Hr. subst res.
  destruct (query_task (Worker.request_id req) db) as [[i t]|] eqn:Hq.
  - rewrite (attempt_duplicate _ _ _ _ _ _ _ Hq) in Hr.
    destruct (on_exception_handled req document_id db
                (IntegrityError (unique_violation (Worker.request_id req))) i t Hq)
      as [_ Hp].
    rewrite Hp in Hr. exfalso. exact (retry_policy_no_return _ _ _ Hr).
  - destruct (documents db !! document_id) as [d|] eqn:Hd.
    + destruct (Worker.service w (Document.file_path d)) as [x|e] eqn:He.
      * destruct (first_attempt_returns (Worker.service w) unique_violation req
                    document_id db d x Hq Hd He)
          as (s1 & s2 & db' & Heq & _ & _ & _ & Hd').
        rewrite Heq in Hr |- *. cbn [fst snd] in *. injection Hr as <-.
        exists d, x. cbn [Worker.ret_text_length Worker.ret_page_count].
        split; [reflexivity|]. split; [exact He|].
        split; [|split; [reflexivity|split; [reflexivity|]]].
        -- rewrite (read_completed document_id db' _ Hd' eq_refl). reflexivity.
        -- apply (service_length w _ _ He).
      * destruct (first_attempt_raises (Worker.service w) unique_violation req
                    document_id db d e Hq Hd He) as (c & db1 & Heq & _).
        rewrite Heq in Hr. exfalso. exact (retry_policy_no_return _ _ _ Hr).
    + destruct (first_attempt_no_document (Worker.service w) unique_violation req
                  document_id db Hq Hd) as (c & db1 & Heq & _).
      rewrite Heq in Hr. exfalso. exact (retry_policy_no_return _ _ _ Hr).
Qed.

Lemma success_is_readable_witness :
  exists x,
    Worker.service Sample.w Sample.a_pdf = Ok x /\
    Documents.get_document_text 1
      (Sample.task {| Worker.request_id := Sample.t1; Worker.retries := 0 |}
         1 Sample.db0).1.2
    = Documents.Body 1 (Some (PDFService.text x)) 26 1.
Proof.
  destruct (success_is_readable Sample.w Sample.pg_unique_violation
              {| Worker.request_id := Sample.t1; Worker.retries := 0 |}
              1 Sample.db0
              {| Worker.ret_document_id := 1; Worker.ret_text_length := 26;
                 Worker.ret_page_count := 1; Worker.ret_status := SUCCESS |})
    as (d & x & Hd & Hs & Hr & Hl & Hp & _); [reflexivity|].
  assert (Hd0 : documents Sample.db0 !! 1
                = Some (Documents.new_document 1 (utf8 "a.pdf") Sample.a_pdf))
    by reflexivity.
  rewrite Hd0 in Hd. injection Hd as <-.
  exists x. split; [exact Hs|].
  cbn [Worker.ret_text_length Worker.ret_page_count] in Hl, Hp.
  rewrite <- Hl, <- Hp in Hr. exact Hr.
Defined.

(** X12.  After any attempt the task endpoint finds a row under the
    attempt's task id, and the row is never left in progress: it is marked
    success when the attempt returned and failure otherwise. *)
Theorem task_status_after_attempt
    (extract : str -> fallible PDFService.extraction)
    (unique_violation : str -> str)
    (req : Worker.request) (document_id : Z) (db : DB) :
  let res := Worker.extract_pdf_text_task extract unique_violation
               req document_id db in
  exists t,
    Routers.get_task_status (Worker.request_id req) res.1.2 = Routers.TaskBody t /\
    ProcessingTask.task_id t = Worker.request_id req /\
    ProcessingTask.status t
    = match res.2 with Worker.Return _ => SUCCESS | _ => FAILURE end.
Proof.
  cbv zeta.
  destruct (attempt_ends extract unique_violation req document_id db)
    as [[r Hr]|[e [He [_ (i & t & Hq & Hs & _)]]]].
  - rewrite Hr.
    destruct (query_task (Worker.request_id req) db) as [[i t]|] eqn:Hq.
    + rewrite (attempt_duplicate _ _ _ _ _ _ _ Hq) in Hr.
      destruct (on_exception_handled req document_id db
                  (IntegrityError (unique_violation (Worker.request_id req))) i t Hq)
        as [_ Hp].
      rewrite Hp in Hr. exfalso. exact (retry_policy_no_return _ _ _ Hr).
    + rewrite (attempt_fresh _ _ _ _ _ Hq) in Hr |- *. cbv zeta in Hr |- *.
      destruct (documents db !! document_id) as [d|];
        [destruct (extract (Document.file_path d)) as [x|e]|];
        cbn [fst snd] in Hr |- *;
        try (exfalso; exact (retry_policy_no_return _ _ _ Hr)).
      unfold Routers.get_task_status, query_task. cbn [processing_tasks].
      rewrite (find_task_snoc (Worker.request_id req) _
                 (Worker.mark_success x (Worker.new_task req document_id)) Hq eq_refl).
      eexists. split; [reflexivity|]. split; reflexivity.
  - rewrite He. unfold Routers.get_task_status. rewrite Hq.
    exists t. split; [reflexivity|].
    apply list_find_Some in Hq as (_ & Ht & _). split; [exact Ht|].
    rewrite Hs. destruct (Worker.retry_policy req e) eqn:Hp; try reflexivity.
    exfalso. exact (retry_policy_no_return _ _ _ Hp).
Qed.

(** X13.  Task history is newest first and only grows at the front: after
    an attempt under a task id that was not in the table, the tasks listed
    for its document are the attempt's own row followed by the list as it
    was; the tasks listed for any other document are as they were. *)
Theorem document_tasks_after_attempt
    (extract : str -> fallible PDFService.extraction)
    (unique_violation : str -> str)
    (req : Worker.request) (document_id : Z) (db : DB) :
  let res := Worker.extract_pdf_text_task extract unique_violation
               req document_id db in
  query_task (Worker.request_id req) db = None ->
  (exists J,
     Routers.get_document_tasks document_id res.1.2
     = J :: Routers.get_document_tasks document_id db /\
     ProcessingTask.task_id J = Worker.request_id req) /\
  forall j, j ≠ document_id ->
    Routers.get_document_tasks j res.1.2 = Routers.get_document_tasks j db.
Proof.
  intros res Hq. subst res.
  destruct (attempt_tasks_shape extract unique_violation req document_id db
              (Worker.extract_pdf_text_task extract unique_violation
                 req document_id db).1.2)
    as [(i & t & f & Hq' & _)|(J & _ & Heq & HJ & _ & HJd)].
  - apply elem_of_app. right. apply list_elem_of_singleton. reflexivity.
  - congruence.
  - unfold Routers.get_document_tasks. rewrite Heq. split.
    + exists J. rewrite filter_app, filter_cons, decide_True by exact HJd.
      rewrite filter_nil, reverse_app. split; [reflexivity|exact HJ].
    + intros j Hj. rewrite filter_app, filter_cons, decide_False by congruence.
      rewrite filter_nil, app_nil_r. reflexivity.
Qed.

Lemma document_tasks_after_attempt_witness :
  length (Routers.get_document_tasks 1
            (Sample.task {| Worker.request_id := Sample.t1; Worker.retries := 0 |}
               1 Sample.db0).1.2) = 1%nat.
Proof.
  unfold Sample.task.
  destruct (document_tasks_after_attempt (Worker.service Sample.w)
              Sample.pg_unique_violation
              {| Worker.request_id := Sample.t1; Worker.retries := 0 |}
              1 Sample.db0) as [(J & HJ & _) _]; [reflexivity|].
  rewrite HJ. reflexivity.
Defined.

(** * The endpoints on their own *)

Section Usage.

Import Document Routers.

Lemma read_ignores_usage (j : Z) (db db' : DB) (b : bool) :
  documents db' !! j = documents db !! j \/
  documents db' !! j = set_is_used b <$> documents db !! j ->
  Documents.get_document_text j db' = Documents.get_document_text j db.
Proof.
  unfold Documents.get_document_text. intros [->| ->]; [reflexivity|].
  destruct (documents db !! j) as [d|]; reflexivity.
Qed.

Lemma lookup_documents_in (ids : list Z) (db : DB) (j : Z) :
  documents_in ids db !! j
  = if decide (j ∈ ids) then documents db !! j else None.
Proof.
  unfold documents_in. apply option_eq. intros d.
  rewrite map_lookup_filter_Some. cbn [fst].
  case_decide; [|split; [intros [_ ?]; contradiction|discriminate]].
  split; [intros [? _]; assumption|auto].
Qed.

Lemma lookup_batch_usage (ids : list Z) (b : bool) (db : DB) (j : Z) :
  ((set_is_used b <$> documents_in ids db) ∪ documents db) !! j
  = if decide (j ∈ ids) then set_is_used b <$> documents db !! j
    else documents db !! j.
Proof.
  rewrite lookup_union, lookup_fmap, lookup_documents_in.
  case_decide; destruct (documents db !! j); reflexivity.
Qed.

Lemma size_documents_in (ids : list Z) (db : DB) :
  (size (documents_in ids db) <= length ids)%nat.
Proof.
  rewrite <- length_map_to_list, <- (length_fmap fst).
  apply submseteq_length, NoDup_submseteq; [apply NoDup_fst_map_to_list|].
  intros j Hj. apply list_elem_of_fmap in Hj as ([j' d] & -> & Hjd).
  apply elem_of_map_to_list in Hjd. rewrite lookup_documents_in in Hjd.
  cbn [fst]. case_decide; [assumption|discriminate].
Qed.

End Usage.

(** X14.  Marking a document used or unused touches nothing of the
    extraction: after [update_document_usage], reading the text of any
    document answers as before and the tasks table is the same; the flag of
    the document is the one asked for, and every other document is as it
    was.  For an id that matches no document nothing changes. *)
Theorem usage_leaves_extraction_alone (document_id : Z) (is_used : bool) (db : DB) :
  let db' := (Routers.update_document_usage document_id is_used db).2 in
  (forall j, Documents.get_document_text j db' = Documents.get_document_text j db) /\
  processing_tasks db' = processing_tasks db /\
  (forall j, documents db' !! j
             = if decide (j = document_id)
               then Routers.set_is_used is_used <$> documents db !! j
               else documents db !! j) /\
  (Document.is_used <$> documents db' !! document_id)
  = ((fun _ => is_used) <$> documents db !! document_id).
Proof.
  cbv zeta. unfold Routers.update_document_usage.
  destruct (documents db !! document_id) as [d|] eqn:Hd; cbn [snd].
  - assert (Hl : forall j, <[document_id := Routers.set_is_used is_used d]>
                             (documents db) !! j
                           = if decide (j = document_id)
                             then Routers.set_is_used is_used <$> documents db !! j
                             else documents db !! j).
    { intros j. case_decide as Hj.
      - subst j. rewrite lookup_insert_eq, Hd. reflexivity.
      - apply lookup_insert_ne. congruence. }
    split; [|split; [reflexivity|split; [exact Hl|]]].
    + intros j. apply (read_ignores_usage j db _ is_used). cbn [documents set_documents].
      rewrite Hl. case_decide; auto.
    + cbn [documents set_documents]. rewrite lookup_insert_eq. reflexivity.
  - split; [reflexivity|]. split; [reflexivity|]. split; [|rewrite Hd; reflexivity].
    intros j. case_decide as Hj; [subst j; rewrite Hd|]; reflexivity.
Qed.

(** X15.  [batch_update_document_usage] with a list that names at least one
    stored document sets the flag of exactly the stored documents named in
    the list and of no other; ids that match nothing and ids given twice are
    passed over, so the count it reports is at least 1 and at most the
    length of the list; and reading the text of any document answers as
    before. *)
Theorem batch_usage_sets_listed
    (document_ids : list Z) (is_used : bool) (db : DB) (i : Z) :
  i ∈ document_ids ->
  is_Some (documents db !! i) ->
  exists message updated_count db',
    Routers.batch_update_document_usage document_ids is_used db
    = (Routers.BatchUsageUpdated message updated_count is_used, db') /\
    1 <= updated_count <= Z.of_nat (length document_ids) /\
    (forall j, documents db' !! j
               = if decide (j ∈ document_ids)
                 then Routers.set_is_used is_used <$> documents db !! j
                 else documents db !! j) /\
    processing_tasks db' = processing_tasks db /\
    (forall j, Documents.get_document_text j db' = Documents.get_document_text j db).
Proof.
  intros Hi [d Hd]. unfold Routers.batch_update_document_usage.
  destruct document_ids as [|i0 ids] eqn:Hids; [inversion Hi|]. rewrite <- Hids in *.
  assert (Hfound : Routers.documents_in document_ids db !! i = Some d).
  { rewrite lookup_documents_in, decide_True by exact Hi. exact Hd. }
  cbv zeta. rewrite decide_False.
  2: { intros Hempty. rewrite Hempty, lookup_empty in Hfound. discriminate. }
  eexists _, _, _. split; [reflexivity|]. split; [|split; [|split]].
  - pose proof (size_documents_in document_ids db) as Hle.
    assert (size (Routers.documents_in document_ids db) ≠ 0%nat) as Hne.
    { apply map_size_non_empty_iff. intros Hempty.
      rewrite Hempty, lookup_empty in Hfound. discriminate. }
    lia.
  - intros j. apply lookup_batch_usage.
  - reflexivity.
  - intros j. apply (read_ignores_usage j db _ is_used). cbn [documents set_documents].
    rewrite lookup_batch_usage. case_decide; auto.
Qed.

Lemma batch_usage_sets_listed_witness :
  exists message db',
    Routers.batch_update_document_usage [2; 7; 2] true Sample.db0
    = (Routers.BatchUsageUpdated message 1 true, db') /\
    (Document.is_used <$> documents db' !! 2) = Some true.
Proof.
  destruct (batch_usage_sets_listed [2; 7; 2] true Sample.db0 2)
    as (m & n & db' & Heq & _ & Hl & _); [set_solver|vm_compute; eauto|].
  assert (n = 1) as ->.
  { vm_compute in Heq. injection Heq as _ <- _. reflexivity. }
  exists m, db'. split; [exact Heq|]. rewrite Hl. reflexivity.
Defined.

(** X16.  [batch_update_document_usage] refuses without writing: with an
    empty list it answers 400, with a list that names no stored document it
    answers 404, and in both cases the tables are left as they were. *)
Theorem batch_usage_refuses_unknown
    (document_ids : list Z) (is_used : bool) (db : DB) :
  (forall i, i ∈ document_ids -> documents db !! i = None) ->
  Routers.batch_update_document_usage document_ids is_used db
  = (Routers.UsageError (if decide (document_ids = []) then 400 else 404)
       (if decide (document_ids = []) then Routers.NO_IDS else Routers.NONE_FOUND),
     db).
Proof.
  intros Hnone. unfold Routers.batch_update_document_usage.
  destruct document_ids as [|i0 ids] eqn:Hids; [reflexivity|]. rewrite <- Hids in *.
  cbv zeta. rewrite decide_True.
  - rewrite !decide_False by (rewrite Hids; discriminate). reflexivity.
  - apply map_empty. intros j. rewrite lookup_documents_in.
    case_decide; [auto|reflexivity].
Qed.

Lemma batch_usage_refuses_unknown_witness :
  Routers.batch_update_document_usage [7; 9] true Sample.db0
  = (Routers.UsageError 404 Routers.NONE_FOUND, Sample.db0).
Proof.
  rewrite (batch_usage_refuses_unknown [7; 9] true Sample.db0); [reflexivity|].
  intros i Hi. repeat (apply elem_of_cons in Hi as [->|Hi]); [reflexivity..|].
  inversion Hi.
Defined.

(** X17.  The pages of [list_tasks] tile the newest-first list of the tasks
    of the type asked.  Let [rows] be the rows of that type in the order of
    their insertion (all rows when the type is absent or empty).  For an
    offset and limits that are not negative: row [i] of the page at [skip]
    is the row [skip + i] places before the last of [rows]; the page holds
    [limit] rows, or what is left of [rows] past [skip]; the page of [limit]
    rows followed by the next page of [limit2] rows is the page of
    [limit + limit2] rows at the same offset; and an empty [task_type]
    filters nothing, like an absent one. *)
Theorem task_pages_tile
    (skip limit limit2 : Z) (task_type : option str) (db : DB) :
  0 <= skip -> 0 <= limit -> 0 <= limit2 ->
  let rows :=
    match task_type with
    | Some (c :: ty) =>
        filter (fun t => ProcessingTask.task_type t = c :: ty) (processing_tasks db)
    | _ => processing_tasks db
    end in
  exists p1 p2,
    Routers.list_tasks skip limit task_type db = Some p1 /\
    Routers.list_tasks (skip + limit) limit2 task_type db = Some p2 /\
    Routers.list_tasks skip (limit + limit2) task_type db = Some (p1 ++ p2) /\
    Z.of_nat (length p1) = Z.min limit (Z.max 0 (Z.of_nat (length rows) - skip)) /\
    (forall i : nat, (i < length p1)%nat ->
       p1 !! i = rows !! (length rows - 1 - Z.to_nat skip - i)%nat) /\
    Routers.list_tasks skip limit (Some []) db = Routers.list_tasks skip limit None db.
Proof.
  intros Hs Hl Hl2 rows. unfold Routers.list_tasks. fold rows.
  replace (skip <? 0) with false by (symmetry; apply Z.ltb_ge; lia).
  replace (skip + limit <? 0) with false by (symmetry; apply Z.ltb_ge; lia).
  replace (limit <? 0) with false by (symmetry; apply Z.ltb_ge; lia).
  replace (limit2 <? 0) with false by (symmetry; apply Z.ltb_ge; lia).
  replace (limit + limit2 <? 0) with false by (symmetry; apply Z.ltb_ge; lia).
  cbn [orb]. eexists _, _. split; [reflexivity|]. split; [reflexivity|].
  assert (Hlen : length (take (Z.to_nat limit) (drop (Z.to_nat skip) (reverse rows)))
                 = (Z.to_nat limit `min` (length rows - Z.to_nat skip))%nat).
  { rewrite length_take, length_drop, length_reverse. reflexivity. }
  split; [|split; [|split; [|reflexivity]]].
  - rewrite !Z2Nat.inj_add by lia. rewrite <- drop_drop, take_take_drop. reflexivity.
  - rewrite Hlen. lia.
  - intros i Hi. rewrite Hlen in Hi.
    rewrite lookup_take_lt by lia. rewrite lookup_drop.
    rewrite reverse_lookup by lia. f_equal. lia.
Qed.

Lemma task_pages_tile_witness :
  exists p1 p2,
    Routers.list_tasks 0 1 None Sample.db_twice = Some p1 /\
    Routers.list_tasks 1 1 None Sample.db_twice = Some p2 /\
    ProcessingTask.task_id <$> p1 = [Sample.t2] /\
    ProcessingTask.task_id <$> p2 = [Sample.t1].
Proof.
  destruct (task_pages_tile 0 1 1 None Sample.db_twice)
    as (p1 & p2 & H1 & H2 & _); [lia..|].
  change (0 + 1) with 1 in H2.
  exists p1, p2. split; [exact H1|]. split; [exact H2|].
  assert (E1 : fmap (M:=option) (fmap ProcessingTask.task_id)
                 (Routers.list_tasks 0 1 None Sample.db_twice) = Some [Sample.t2])
    by (vm_compute; reflexivity).
  assert (E2 : fmap (M:=option) (fmap ProcessingTask.task_id)
                 (Routers.list_tasks 1 1 None Sample.db_twice) = Some [Sample.t1])
    by (vm_compute; reflexivity).
  rewrite H1 in E1. rewrite H2 in E2. cbn in E1, E2.
  injection E1 as E1. injection E2 as E2. split; [exact E1|exact E2].
Defined.

(** * Sending documents to the worker again *)

Section BatchLoops.

Import Document Batch.

Variable upload_type : Z -> str.
Variable delay : Z -> fallible unit.

Lemma resettable_status (d : Document.t) :
  resettable d = true <->
  extraction_status d = PENDING \/ extraction_status d = FAILED.
Proof.
  unfold resettable. rewrite orb_true_iff, !bool_decide_eq_true. reflexivity.
Qed.

(** Messages go out only for rows that can be reset. *)
Lemma process_rows_queue (rows : list (Z * Document.t)) :
  forall st st' o,
    process_rows delay rows st = (st', o) ->
    forall j, j ∈ l_queue st' ->
      j ∈ l_queue st \/ exists d, (j, d) ∈ rows /\ resettable d = true.
Proof.
  induction rows as [|[i doc] rest IH]; intros st st' o Hrun j Hj.
  - injection Hrun as <- _. auto.
  - cbn [process_rows] in Hrun. destruct (resettable doc) eqn:Hr.
    + destruct (delay i) as [[]|e].
      * destruct (IH _ _ _ Hrun j Hj) as [Hin|(d & Hd & Hrd)].
        -- cbn [l_queue] in Hin. apply elem_of_app in Hin as [Hin|Hin]; [auto|].
           apply list_elem_of_singleton in Hin. subst j.
           right. exists doc. split; [left|exact Hr].
        -- right. exists d. split; [right; exact Hd|exact Hrd].
      * injection Hrun as <- _. auto.
    + destruct (IH _ _ _ Hrun j Hj) as [Hin|(d & Hd & Hrd)]; [auto|].
      right. exists d. split; [right; exact Hd|exact Hrd].
Qed.

(** The loop that ran to its end. *)
Lemma process_rows_done (rows : list (Z * Document.t)) :
  forall st st',
    process_rows delay rows st = (st', None) ->
    NoDup rows.*1 ->
    l_queue st' = l_queue st ++ (filter (fun kd => resettable kd.2 = true) rows).*1 /\
    l_processed st'
      = l_processed st ++ (filter (fun kd => resettable kd.2 = true) rows).*1 /\
    (length (l_processed st') + length (l_skipped st')
     = length (l_processed st) + length (l_skipped st) + length rows)%nat /\
    (forall j d, (j, d) ∈ rows -> resettable d = true ->
                 l_docs st' !! j = Some (reset d)) /\
    (forall j, (forall d, (j, d) ∈ rows -> resettable d = false) ->
               l_docs st' !! j = l_docs st !! j).
Proof.
  induction rows as [|[i doc] rest IH]; intros st st' Hrun Hnd.
  - injection Hrun as <-. rewrite !app_nil_r.
    split; [reflexivity|]. split; [reflexivity|]. split; [cbn; lia|].
    split; [intros j d Hin; inversion Hin|reflexivity].
  - cbn [process_rows] in Hrun. apply NoDup_cons in Hnd as [Hi Hnd].
    assert (Hfresh : forall d, (i, d) ∈ rest -> False).
    { intros d Hd. apply Hi. apply list_elem_of_fmap. exists (i, d). auto. }
    rewrite filter_cons. cbn [snd]. destruct (resettable doc) eqn:Hr.
    + destruct (delay i) as [[]|e]; [|discriminate].
      destruct (IH _ _ Hrun Hnd) as (Hq & Hp & Hlen & Hset & Hkeep).
      cbn [l_queue l_processed l_skipped l_docs] in *.
      rewrite decide_True by reflexivity. cbn [fmap list_fmap fst].
      split; [rewrite Hq, <- !app_assoc; reflexivity|].
      split; [rewrite Hp, <- !app_assoc; reflexivity|].
      split; [rewrite length_app in Hlen; cbn [length] in *; lia|]. split.
      * intros j d Hin Hrd. apply elem_of_cons in Hin as [[= -> ->]|Hin].
        -- rewrite Hkeep; [apply lookup_insert_eq|].
           intros d Hd. destruct (Hfresh d Hd).
        -- exact (Hset j d Hin Hrd).
      * intros j Hj. rewrite Hkeep.
        -- apply lookup_insert_ne. intros ->.
           specialize (Hj doc (list_elem_of_here _ _)). congruence.
        -- intros d Hd. apply Hj. right. exact Hd.
    + destruct (IH _ _ Hrun Hnd) as (Hq & Hp & Hlen & Hset & Hkeep).
      cbn [l_queue l_processed l_skipped l_docs] in *.
      rewrite decide_False by discriminate.
      split; [exact Hq|]. split; [exact Hp|].
      split; [rewrite length_app in Hlen; cbn [length] in *; lia|]. split.
      * intros j d Hin Hrd. apply elem_of_cons in Hin as [[= -> ->]|Hin];
          [congruence|]. exact (Hset j d Hin Hrd).
      * intros j Hj. apply Hkeep. intros d Hd. apply Hj. right. exact Hd.
Qed.

(** The loop of the restart of everything pending. *)
Lemma restart_rows_spec (rows : list (Z * Document.t)) :
  forall docs n q docs' n' q',
    restart_rows delay rows docs n q = (docs', n', q') ->
    NoDup rows.*1 ->
    (forall j d, (j, d) ∈ rows ->
       match delay j with
       | Ok _ => docs' !! j = Some (reset d) /\ j ∈ q'
       | Raise e =>
           docs' !! j
           = Some (with_error (RESTART_FAILED ++ str_of_exn e) (reset d))
       end) /\
    (forall j, j ∉ rows.*1 -> docs' !! j = docs !! j) /\
    (forall j, j ∈ q -> j ∈ q') /\
    (forall j, j ∈ q' -> j ∈ q \/ j ∈ rows.*1 /\ exists u, delay j = Ok u) /\
    n' = n + Z.of_nat (length q') - Z.of_nat (length q).
Proof.
  induction rows as [|[i doc] rest IH]; intros docs n q docs' n' q' Hrun Hnd.
  - injection Hrun as <- <- <-.
    split; [intros j d Hin; inversion Hin|]. split; [reflexivity|].
    split; [auto|]. split; [auto|lia].
  - cbn [restart_rows] in Hrun. apply NoDup_cons in Hnd as [Hi Hnd].
    change (((i, doc) :: rest).*1) with (i :: (fst <$> rest)).
    assert (Hother : forall j, j ∉ (i :: (fst <$> rest)) -> (j ∉ (fst <$> rest)) /\ i ≠ j).
    { intros j Hj. split; [intros H; apply Hj; right; exact H|].
      intros ->. apply Hj. left. }
    destruct (delay i) as [u|e] eqn:Hdel;
      destruct (IH _ _ _ _ _ _ Hrun Hnd) as (Hset & Hkeep & Hmono & Hq & Hn);
      (split; [|split; [|split; [|split]]]).
    + intros j d Hin. apply elem_of_cons in Hin as [[= -> ->]|Hin];
        [|exact (Hset j d Hin)].
      rewrite Hdel, (Hkeep i Hi), lookup_insert_eq. split; [reflexivity|].
      apply Hmono, elem_of_app. right. apply list_elem_of_singleton. reflexivity.
    + intros j Hj. destruct (Hother j Hj) as [Hj1 Hj2].
      rewrite (Hkeep j Hj1). apply lookup_insert_ne. exact Hj2.
    + intros j Hj. apply Hmono, elem_of_app. left. exact Hj.
    + intros j Hj. destruct (Hq j Hj) as [Hin|[Hin Hok]].
      * apply elem_of_app in Hin as [Hin|Hin]; [auto|].
        apply list_elem_of_singleton in Hin. subst j.
        right. split; [left|eauto].
      * right. split; [right; exact Hin|exact Hok].
    + rewrite length_app in Hn. cbn [length] in Hn. lia.
    + intros j d Hin. apply elem_of_cons in Hin as [[= -> ->]|Hin];
        [|exact (Hset j d Hin)].
      rewrite Hdel, (Hkeep i Hi), lookup_insert_eq. reflexivity.
    + intros j Hj. destruct (Hother j Hj) as [Hj1 Hj2].
      rewrite (Hkeep j Hj1). apply lookup_insert_ne. exact Hj2.
    + exact Hmono.
    + intros j Hj. destruct (Hq j Hj) as [Hin|[Hin Hok]]; [auto|].
      right. split; [right; exact Hin|exact Hok].
    + exact Hn.
Qed.

End BatchLoops.

Section BatchFacts.

Lemma NoDup_fst_filter {A} (P : Z * A -> Prop) `{!forall x, Decision (P x)}
    (l : list (Z * A)) :
  NoDup (fst <$> l) -> NoDup (fst <$> filter P l).
Proof.
  induction l as [|x l IH]; [intros _; constructor|].
  change (fst <$> x :: l) with (x.1 :: (fst <$> l)).
  intros [Hx Hl]%NoDup_cons. rewrite filter_cons. case_decide; [|auto].
  change (fst <$> x :: filter P l) with (x.1 :: (fst <$> filter P l)).
  apply NoDup_cons. split; [|auto].
  intros Hin. apply Hx. apply list_elem_of_fmap in Hin as (y & -> & Hy).
  apply list_elem_of_filter in Hy as [_ Hy]. apply list_elem_of_fmap. eauto.
Qed.

Lemma elem_of_rows {A} (P : Z * A -> Prop) `{!forall x, Decision (P x)}
    (m : gmap Z A) (j : Z) (d : A) :
  (j, d) ∈ map_to_list (filter P m) <-> m !! j = Some d /\ P (j, d).
Proof. rewrite elem_of_map_to_list. apply map_lookup_filter_Some. Qed.

End BatchFacts.

(** X18.  When [batch_process_documents] starts a batch, the messages handed
    to the broker are exactly the stored PDF documents named in the list
    that were pending or failed, each once however often its id was given;
    those documents are committed as pending with their error cleared, and
    reading their text answers 425; every other document, a completed one
    included, and the tasks table are as they were; and the counts add up:
    total = processed + skipped. *)
Theorem batch_process_resets_listed
    (upload_type : Z -> str) (delay : Z -> fallible unit)
    (document_ids : list Z) (db db' : DB)
    (total processed skipped : Z) (processed_documents : list Z)
    (skipped_documents : list (Z * str)) (queue : list Z) :
  Batch.batch_process_documents upload_type delay (Some document_ids) db
  = (Batch.BatchStarted total processed skipped processed_documents
       skipped_documents, db', queue) ->
  queue = processed_documents /\ NoDup queue /\
  total = processed + skipped /\
  processed = Z.of_nat (length processed_documents) /\
  (forall j, j ∈ queue <->
     j ∈ document_ids /\ upload_type j = Batch.PDF /\
     exists d, documents db !! j = Some d /\ Batch.resettable d = true) /\
  (forall j d, j ∈ queue -> documents db !! j = Some d ->
     documents db' !! j = Some (Batch.reset d) /\
     Documents.get_document_text j db'
     = Documents.HTTPException 425 Documents.WAIT_PENDING) /\
  (forall j, j ∉ queue -> documents db' !! j = documents db !! j) /\
  processing_tasks db' = processing_tasks db.
Proof.
  unfold Batch.batch_process_documents.
  destruct document_ids as [|i0 ids0] eqn:Hids; [discriminate|]. rewrite <- Hids.
  destruct (50 <? _); [discriminate|]. cbv zeta.
  set (P := fun kd : Z * Document.t =>
              kd.1 ∈ document_ids /\ upload_type kd.1 = Batch.PDF).
  destruct (decide (filter P (documents db) = ∅)); [discriminate|].
  destruct (Batch.process_rows delay _ _) as [st [e|]] eqn:Hrun; [discriminate|].
  intros [= <- <- <- <- <- <- <-].
  destruct (process_rows_done delay _ _ _ Hrun (NoDup_fst_map_to_list _))
    as (Hq & Hp & Hlen & Hset & Hkeep).
  cbn [Batch.l_queue Batch.l_processed Batch.l_skipped Batch.l_docs app] in *.
  assert (Hmem : forall j, j ∈ Batch.l_queue st <->
            exists d, documents db !! j = Some d /\ P (j, d)
                      /\ Batch.resettable d = true).
  { intros j. rewrite Hq, list_elem_of_fmap. split.
    - intros ([j' d] & -> & Hin). apply list_elem_of_filter in Hin as [Hr Hin].
      apply elem_of_rows in Hin as [Hd HP]. exists d. auto.
    - intros (d & Hd & HP & Hr). exists (j, d). split; [reflexivity|].
      apply list_elem_of_filter. split; [exact Hr|]. apply elem_of_rows. auto. }
  split; [congruence|]. split.
  { rewrite Hq. apply NoDup_fst_filter, NoDup_fst_map_to_list. }
  split; [rewrite length_map_to_list in Hlen; cbn [length] in Hlen; lia|].
  split; [reflexivity|].
  split; [|split; [|split; [|reflexivity]]].
  - intros j. rewrite Hmem. unfold P. cbn [fst]. split.
    + intros (d & Hd & [H1 H2] & Hr). eauto.
    + intros (H1 & H2 & d & Hd & Hr). eauto.
  - intros j d Hj Hd. apply Hmem in Hj as (d0 & Hd0 & HP & Hr).
    assert (d0 = d) as -> by congruence.
    assert (Hnew : Batch.l_docs st !! j = Some (Batch.reset d)).
    { apply Hset; [apply elem_of_rows; auto|exact Hr]. }
    split; [exact Hnew|].
    unfold Documents.get_document_text. cbn [documents set_documents].
    rewrite Hnew. reflexivity.
  - intros j Hj. cbn [documents set_documents]. apply Hkeep.
    intros d Hin. apply elem_of_rows in Hin as [Hd HP].
    destruct (Batch.resettable d) eqn:Hr; [|reflexivity].
    exfalso. apply Hj, Hmem. eauto.
Qed.

Lemma batch_process_resets_listed_witness :
  exists db' processed_documents,
    Batch.batch_process_documents (fun _ => Batch.PDF) (fun _ => Ok tt)
      (Some [1; 1; 5]) Sample.db0
    = (Batch.BatchStarted 1 1 0 processed_documents [], db', [1]) /\
    documents db' !! 2 = documents Sample.db0 !! 2.
Proof.
  eexists _, _. split; [vm_compute; reflexivity|].
  eapply (batch_process_resets_listed (fun _ => Batch.PDF) (fun _ => Ok tt)
            [1; 1; 5] Sample.db0); [vm_compute; reflexivity|].
  intros Hin. apply list_elem_of_singleton in Hin. discriminate.
Defined.

(** X19.  [batch_process_documents] commits nothing unless it starts the
    batch.  When it refuses its input nothing is handed to the broker
    either; when the broker raises in the middle, messages already handed
    over stay queued, each for a stored document that was pending or failed,
    while that document stays in the table as it was, not reset. *)
Theorem batch_process_commits_on_success_only
    (upload_type : Z -> str) (delay : Z -> fallible unit)
    (document_ids : option (list Z)) (db db' : DB)
    (r : Batch.response) (queue : list Z) :
  Batch.batch_process_documents upload_type delay document_ids db
  = (r, db', queue) ->
  (forall t p s pl sl, r ≠ Batch.BatchStarted t p s pl sl) ->
  db' = db /\
  (forall code detail, r = Batch.BatchError code detail -> queue = []) /\
  (forall j, j ∈ queue ->
     exists d, documents db' !! j = Some d /\ Batch.resettable d = true).
Proof.
  unfold Batch.batch_process_documents. intros Hrun Hr.
  assert (Hrefuse : forall code detail,
            (Batch.BatchError code detail, db, @nil Z) = (r, db', queue) ->
            db' = db /\
            (forall code detail, r = Batch.BatchError code detail -> queue = []) /\
            (forall j, j ∈ queue ->
               exists d, documents db' !! j = Some d /\ Batch.resettable d = true)).
  { intros code detail [= <- <- <-]. split; [reflexivity|]. split; [reflexivity|].
    intros j Hj. inversion Hj. }
  destruct document_ids as [[|i0 ids0]|]; [eauto| |eauto].
  destruct (50 <? _); [eauto|]. cbv zeta in Hrun.
  destruct (decide (_ = ∅)); [eauto|].
  destruct (Batch.process_rows delay _ _) as [st [e|]] eqn:Hloop.
  - injection Hrun as <- <- <-. split; [reflexivity|]. split; [discriminate|].
    intros j Hj.
    destruct (process_rows_queue delay _ _ _ _ Hloop j Hj) as [Hin|(d & Hd & Hres)];
      [inversion Hin|].
    apply elem_of_rows in Hd as [Hd _]. eauto.
  - injection Hrun as <- _ _. exfalso. eapply Hr. reflexivity.
Qed.

Lemma batch_process_commits_on_success_only_witness :
  exists r queue,
    Batch.batch_process_documents (fun _ => Batch.PDF)
      (fun _ => Raise (Exception (utf8 "broker unreachable")))
      (Some [1; 2]) Sample.db0
    = (r, Sample.db0, queue).
Proof.
  destruct (Batch.batch_process_documents (fun _ => Batch.PDF)
              (fun _ => Raise (Exception (utf8 "broker unreachable")))
              (Some [1; 2]) Sample.db0) as [[r db'] queue] eqn:Hrun.
  destruct (batch_process_commits_on_success_only _ _ _ _ _ _ _ Hrun) as [-> _].
  - vm_compute in Hrun. injection Hrun as <- _ _. discriminate.
  - eauto.
Defined.

(** X20.  [process_all_pending_documents] leaves no PDF document failed.
    Every stored PDF document that was pending or failed is committed as
    pending; when the broker took its message its error is cleared and the
    message is in the queue, and when the broker refused it the document is
    pending all the same, with the refusal as its error and no message
    queued.  Every other document and the tasks table are as they were, and
    the count reported is the number of messages queued. *)
Theorem restart_leaves_none_failed
    (upload_type : Z -> str) (delay : Z -> fallible unit) (db : DB) :
  let res := Batch.process_all_pending_documents upload_type delay db in
  let db' := res.1.2 in
  processing_tasks db' = processing_tasks db /\
  (forall j, documents db' !! j
     = (fun d =>
          if decide (upload_type j = Batch.PDF) then
            if Batch.resettable d then
              match delay j with
              | Ok _ => Batch.reset d
              | Raise e =>
                  Batch.with_error (Batch.RESTART_FAILED ++ str_of_exn e)
                    (Batch.reset d)
              end
            else d
          else d) <$> documents db !! j) /\
  (forall j, j ∈ res.2 <->
     upload_type j = Batch.PDF /\ (exists u, delay j = Ok u) /\
     exists d, documents db !! j = Some d /\ Batch.resettable d = true) /\
  (forall j d', documents db' !! j = Some d' -> upload_type j = Batch.PDF ->
     Document.extraction_status d' ≠ FAILED) /\
  (forall n t ids, res.1.1 = Batch.Restarted n t ids ->
     n = Z.of_nat (length res.2)).
Proof.
  cbv zeta. unfold Batch.process_all_pending_documents.
  set (P := fun kd : Z * Document.t =>
              upload_type kd.1 = Batch.PDF /\ Batch.resettable kd.2 = true).
  assert (Hdocs : forall (docs' : gmap Z Document.t),
            (forall j, docs' !! j
               = (fun d =>
                    if decide (upload_type j = Batch.PDF) then
                      if Batch.resettable d then
                        match delay j with
                        | Ok _ => Batch.reset d
                        | Raise e =>
                            Batch.with_error
                              (Batch.RESTART_FAILED ++ str_of_exn e) (Batch.reset d)
                        end
                      else d
                    else d) <$> documents db !! j) ->
            forall j d', docs' !! j = Some d' -> upload_type j = Batch.PDF ->
                         Document.extraction_status d' ≠ FAILED).
  { intros docs' Hl j d' Hd' Hpdf. rewrite Hl in Hd'.
    destruct (documents db !! j) as [d|]; [|discriminate].
    cbn in Hd'. rewrite decide_True in Hd' by exact Hpdf.
    destruct (Batch.resettable d) eqn:Hr.
    - destruct (delay j); injection Hd' as <-; discriminate.
    - injection Hd' as <-. intros Hf.
      assert (Batch.resettable d = true) by (apply resettable_status; auto).
      congruence. }
  destruct (decide (filter P (documents db) = ∅)) as [Hempty|Hne].
  - cbn [fst snd].
    assert (Hl : forall j d, documents db !! j = Some d ->
              upload_type j = Batch.PDF -> Batch.resettable d = false).
    { intros j d Hd Hpdf. destruct (Batch.resettable d) eqn:Hr; [|reflexivity].
      assert (filter P (documents db) !! j = Some d) as Hin
        by (apply map_lookup_filter_Some; split; [exact Hd|split; assumption]).
      rewrite Hempty, lookup_empty in Hin. discriminate. }
    assert (Hsame : forall j, documents db !! j
              = (fun d =>
                   if decide (upload_type j = Batch.PDF) then
                     if Batch.resettable d then
                       match delay j with
                       | Ok _ => Batch.reset d
                       | Raise e =>
                           Batch.with_error
                             (Batch.RESTART_FAILED ++ str_of_exn e) (Batch.reset d)
                       end
                     else d
                   else d) <$> documents db !! j).
    { intros j. destruct (documents db !! j) as [d|] eqn:Hd; [|reflexivity].
      cbn. case_decide as Hpdf; [|reflexivity]. rewrite (Hl j d Hd Hpdf). reflexivity. }
    split; [reflexivity|]. split; [exact Hsame|]. split; [|split; [|discriminate]].
    + intros j. split; [intros Hin; inversion Hin|].
      intros (Hpdf & _ & d & Hd & Hr). rewrite (Hl j d Hd Hpdf) in Hr. discriminate.
    + exact (Hdocs _ Hsame).
  - destruct (Batch.restart_rows delay _ _ _ _) as [[docs n] q] eqn:Hrun.
    cbn [fst snd documents processing_tasks set_documents].
    destruct (restart_rows_spec delay _ _ _ _ _ _ _ Hrun (NoDup_fst_map_to_list _))
      as (Hset & Hkeep & _ & Hq & Hn).
    assert (Hsame : forall j, docs !! j
              = (fun d =>
                   if decide (upload_type j = Batch.PDF) then
                     if Batch.resettable d then
                       match delay j with
                       | Ok _ => Batch.reset d
                       | Raise e =>
                           Batch.with_error
                             (Batch.RESTART_FAILED ++ str_of_exn e) (Batch.reset d)
                       end
                     else d
                   else d) <$> documents db !! j).
    { intros j. destruct (documents db !! j) as [d|] eqn:Hd.
      - cbn. destruct (decide (P (j, d))) as [[Hpdf Hr]|Hno].
        + cbn [fst snd] in Hpdf, Hr. rewrite decide_True, Hr by exact Hpdf.
          assert ((j, d) ∈ map_to_list (filter P (documents db))) as Hin
            by (apply elem_of_rows; split; [exact Hd|split; assumption]).
          specialize (Hset j d Hin). destruct (delay j); [apply Hset|exact Hset].
        + rewrite Hkeep.
          * rewrite Hd. f_equal. case_decide as Hpdf; [|reflexivity].
            destruct (Batch.resettable d) eqn:Hr; [|reflexivity].
            exfalso. apply Hno. split; assumption.
          * intros Hin. apply list_elem_of_fmap in Hin as ([j' d0] & -> & Hin).
            apply elem_of_rows in Hin as [Hd0 HP]. cbn [fst] in *.
            assert (d0 = d) as -> by congruence. contradiction.
      - rewrite Hkeep; [exact Hd|].
        intros Hin. apply list_elem_of_fmap in Hin as ([j' d0] & -> & Hin).
        apply elem_of_rows in Hin as [Hd0 _]. cbn [fst] in *. congruence. }
    split; [reflexivity|]. split; [exact Hsame|]. split; [|split].
    + intros j. split.
      * intros Hj. destruct (Hq j Hj) as [Hin|[Hin Hok]]; [inversion Hin|].
        apply list_elem_of_fmap in Hin as ([j' d] & -> & Hin).
        apply elem_of_rows in Hin as [Hd [Hpdf Hr]]. cbn [fst snd] in *. eauto.
      * intros (Hpdf & [u Hu] & d & Hd & Hr).
        assert ((j, d) ∈ map_to_list (filter P (documents db))) as Hin
          by (apply elem_of_rows; split; [exact Hd|split; assumption]).
        specialize (Hset j d Hin). rewrite Hu in Hset. apply Hset.
    + exact (Hdocs _ Hsame).
    + intros n0 t ids [= <- _ _]. cbn [length] in Hn. lia.
Qed.

Lemma restart_leaves_none_failed_witness :
  let db1 := (Worker.extract_pdf_text_task Sample.flaky Sample.pg_unique_violation
                {| Worker.request_id := Sample.t1; Worker.retries := 0 |}
                1 Sample.db0).1.2 in
  (Document.extraction_status <$> documents db1 !! 1) = Some FAILED /\
  forall d',
    documents (Batch.process_all_pending_documents (fun _ => Batch.PDF)
                 (fun _ => Ok tt) db1).1.2 !! 1 = Some d' ->
    Document.extraction_status d' ≠ FAILED.
Proof.
  intros db1. split; [reflexivity|]. intros d' Hd'.
  destruct (restart_leaves_none_failed (fun _ => Batch.PDF) (fun _ => Ok tt) db1)
    as (_ & _ & _ & H & _).
  exact (H 1 d' Hd' eq_refl).
Defined.
